(** * Mushroom classifier: preprocessing and prediction glue

    A shallow embedding of [utils.py] (class [MushroomClassifier],
    [preprocess_image_simple], [format_prediction_output], [validate_image])
    and of [streamlit_app.py] ([load_model], [preprocess_image],
    [predict_mushroom]).

    - Python exceptions are values of an error type; a computation returns an
      [outcome] together with the new object state and the list of the
      external calls and messages it produced, in order.
    - Pillow, Keras and the file system are outside the repository: they are
      the fields of the class [Env]. Their answers depend on their arguments
      only: the files do not change while the program runs.
    - The arithmetic of the verdict is written once, over the class
      [PyFloat], and is run on IEEE binary64 (what a Python [float] is) and on
      exact rationals (a probability read as a real number).
    - [main] of [streamlit_app.py], which only lays out widgets around
      [load_model] and [predict_mushroom], is not modelled. *)

From Stdlib Require Import Ascii String List ZArith QArith Qminmax Lqa Lia Bool Floats.
From Stdlib Require Import Decimal DecimalString.
From Stdlib.Strings Require Import Byte.
Import ListNotations.

Set Implicit Arguments.

(** ** Exceptions and outcomes *)

(** The subclasses of [Exception] that the two files raise or receive.
    [KeyboardInterrupt] and [SystemExit] are not instances of [Exception]
    and are not in this type. [OSError] stands for Pillow's
    [UnidentifiedImageError] too, which derives from it. *)
Inductive exn_class : Type :=
| FileNotFoundError
| ValueError
| RuntimeError
| TypeError
| AttributeError
| IndexError
| KeyError
| OSError.

(** [str(e)] is [exn_msg e]. *)
Record exn : Type := Exn { exn_cls : exn_class; exn_msg : string }.

Inductive outcome (A : Type) : Type :=
| Return (a : A)
| Raise (e : exn).
Arguments Return {A} a.
Arguments Raise {A} e.

(** ** What a call does to the outside world *)

Inductive event : Type :=
| EvPathExists (path : string)          (* os.path.exists *)
| EvGetSize (path : string)             (* os.path.getsize *)
| EvLoadModel (path : string)           (* keras.models.load_model *)
| EvImageOpen (path : string)           (* Image.open *)
| EvFromArray                           (* Image.fromarray *)
| EvConvert (mode : string)             (* image.convert *)
| EvResize (size : nat * nat)           (* image.resize(size, Image.LANCZOS) *)
| EvVerify                              (* image.verify *)
| EvModelPredict                        (* model.predict(x, verbose=0) *)
| EvPrint (msg : string)                (* print *)
| EvStError (msg : string)              (* st.error *)
| EvStInfo (msg : string)               (* st.info *)
| EvStSpinner (msg : string).           (* with st.spinner(msg) *)

(** ** The monad: object state, exceptions, emitted events

    [S] is the state of the object the method runs on ([unit] for a module
    level function). A run ends with an outcome, the new state and the events
    it emitted, oldest first. An exception keeps the state changes and the
    events made before it was raised, as in Python. *)
Record run (S A : Type) : Type := Run {
  outcome_of : outcome A;
  state_of : S;
  events_of : list event
}.
Arguments Run {S A} _ _ _.

Definition M (S A : Type) : Type := S -> run S A.

Definition ret {S A} (a : A) : M S A := fun s => Run (Return a) s [].

Definition bind {S A B} (m : M S A) (k : A -> M S B) : M S B :=
  fun s =>
    match m s with
    | Run (Return a) s1 ev1 =>
        match k a s1 with
        | Run r s2 ev2 => Run r s2 (ev1 ++ ev2)
        end
    | Run (Raise e) s1 ev1 => Run (Raise e) s1 ev1
    end.

Definition raise {S A} (e : exn) : M S A := fun s => Run (Raise e) s [].

(** [try: body except Exception as e: handler e] *)
Definition try_except {S A} (body : M S A) (handler : exn -> M S A) : M S A :=
  fun s =>
    match body s with
    | Run (Return a) s1 ev1 => Run (Return a) s1 ev1
    | Run (Raise e) s1 ev1 =>
        match handler e s1 with
        | Run r s2 ev2 => Run r s2 (ev1 ++ ev2)
        end
    end.

Definition get {S} : M S S := fun s => Run (Return s) s [].
Definition put {S} (s' : S) : M S unit := fun _ => Run (Return tt) s' [].

(** An external call: its outcome is given by the environment, the call is
    recorded. *)
Definition call {S A} (ev : event) (r : outcome A) : M S A :=
  fun s => Run r s [ev].

Definition emit {S} (ev : event) : M S unit := call ev (Return tt).

Declare Scope py_scope.
Delimit Scope py_scope with py.
Notation "x <- m ;; k" := (bind m (fun x => k))
  (at level 61, m at next level, right associativity) : py_scope.
Notation "m ;; k" := (bind m (fun _ => k))
  (at level 61, right associativity) : py_scope.

(** ** Python floats

    The operations the verdict uses: [1.0 - p], [x * 100], [x > y] and the
    literals. [max(a, b)] of Python keeps its first argument unless the second
    is strictly greater. *)
Class PyFloat (F : Type) : Type := {
  f_one : F;                  (* 1.0 *)
  f_half : F;                 (* 0.5 *)
  f_hundred : F;              (* 100 *)
  f_sub : F -> F -> F;
  f_mul : F -> F -> F;
  f_gt : F -> F -> bool
}.

Definition pymax {F} {PF : PyFloat F} (a b : F) : F := if f_gt b a then b else a.

(** IEEE binary64. *)
#[export] Instance PyFloat_binary64 : PyFloat float := {
  f_one := 1%float;
  f_half := 0.5%float;
  f_hundred := 100%float;
  f_sub := PrimFloat.sub;
  f_mul := PrimFloat.mul;
  f_gt := fun a b => PrimFloat.ltb b a
}.

(** Exact arithmetic. *)
#[export] Instance PyFloat_exact : PyFloat Q := {
  f_one := 1%Q;
  f_half := (1 # 2)%Q;
  f_hundred := 100%Q;
  f_sub := Qminus;
  f_mul := Qmult;
  f_gt := fun a b => negb (Qle_bool a b)
}.

(** What the two helper functions of [utils.py] take from Python itself:
    the division of two [int]s, the comparison of a float with an [int], and
    the formatting of numbers inside an f-string. *)
Class PyBuiltins (F : Type) : Type := {
  int_truediv : Z -> Z -> F;      (* a / b *)
  f_gt_int : F -> Z -> bool;      (* x > n *)
  format_2f : F -> string;        (* f"{x:.2f}" *)
  str_int : Z -> string           (* f"{n}" *)
}.

(** Python's own operations in exact arithmetic. *)

(** Decimal digits of a natural number given as [Z]. *)
Definition digits (n : Z) : string := NilZero.string_of_uint (N.to_uint (Z.to_N n)).

(** [f"{x:.2f}"]: two decimals, the last one rounded half to even, with the
    sign of [x]. *)
Definition format_2f_exact (x : Q) : string :=
  let n := (Z.abs (Qnum x) * 100)%Z in
  let d := Zpos (Qden x) in
  let q := (n / d)%Z in
  let r := (n mod d)%Z in
  let q := if ((2 * r >? d) || ((2 * r =? d) && Z.odd q))%Z then (q + 1)%Z else q in
  let cents := (q mod 100)%Z in
  ((if (Qnum x <? 0)%Z then "-" else "")
   ++ digits (q / 100) ++ "."
   ++ (if (cents <? 10)%Z then "0" else "") ++ digits cents)%string.

#[export] Instance PyBuiltins_exact : PyBuiltins Q := {
  int_truediv := fun a b => (inject_Z a / inject_Z b)%Q;
  f_gt_int := fun x n => negb (Qle_bool x (inject_Z n));
  format_2f := format_2f_exact;
  str_int := fun n => NilZero.string_of_int (Z.to_int n)
}.

(** ["\n"] *)
Definition nl : string := String "010"%char EmptyString.

(** ** Arrays and images *)

(** A numpy array: its shape and its buffer in row-major order. *)
Record ndarray (A : Type) : Type := NdArray { shape : list nat; data : list A }.

Definition array_map {A B} (f : A -> B) (a : ndarray A) : ndarray B :=
  {| shape := shape a; data := map f (data a) |}.

(** [a.astype('uint8')] on an integer array wraps modulo 256. *)
Definition uint8_of_Z (z : Z) : byte :=
  match Byte.of_N (Z.to_N (z mod 256)) with
  | Some b => b
  | None => x00
  end.

Definition astype_uint8 (a : ndarray Z) : ndarray byte := array_map uint8_of_Z a.

Definition Z_of_uint8 (b : byte) : Z := Z.of_N (Byte.to_N b).

(** [a.astype('float32') / 255.0], entry by entry: the pixel value over 255,
    kept as the exact quotient. *)
Definition normalize_pixel (b : byte) : Q := (inject_Z (Z_of_uint8 b) / 255)%Q.

Definition astype_float32_div255 (a : ndarray byte) : ndarray Q :=
  array_map normalize_pixel a.

(** [np.expand_dims(a, axis=0)] *)
Definition expand_dims0 {A} (a : ndarray A) : ndarray A :=
  {| shape := 1%nat :: shape a; data := data a |}.

(** A Pillow image: mode, size as (width, height), and the bytes of its
    bands, pixel after pixel, row after row. *)
Record image : Type := Image {
  mode : string;
  size : nat * nat;
  pixels : list byte
}.

(** [len(image.getbands())] for the modes with 8-bit bands. *)
Definition nbands (m : string) : nat :=
  if String.eqb m "RGB" then 3
  else if String.eqb m "RGBA" then 4
  else if String.eqb m "CMYK" then 4
  else if String.eqb m "LA" then 2
  else 1.

(** [np.array(image)]: shape (height, width, bands), or (height, width) for
    a single band. *)
Definition np_array (im : image) : ndarray byte :=
  let '(w, h) := size im in
  {| shape := if Nat.eqb (nbands (mode im)) 1 then [h; w]
              else [h; w; nbands (mode im)];
     data := pixels im |}.

Definition well_formed (im : image) : Prop :=
  length (pixels im) = (snd (size im) * fst (size im) * nbands (mode im))%nat.

(** What can be passed where the code expects an image. *)
Inductive py_image : Type :=
| PyStr (path : string)
| PyArray (a : ndarray Z)
| PyImage (im : image)
| PyOther.                              (* any other object *)

(** A loaded Keras model is what its [predict] answers: a batch of rows of
    floats, or an exception. *)
Record keras_model (F : Type) : Type := KerasModel {
  model_predict : ndarray Q -> outcome (list (list F))
}.

(** ** The environment: file system, Keras, Pillow *)
Class Env (F : Type) : Type := {
  os_path_exists : string -> bool;
  os_path_getsize : string -> outcome Z;
  keras_load_model : string -> outcome (keras_model F);
  Image_open : string -> outcome image;
  Image_fromarray : ndarray byte -> outcome image;
  Image_convert : image -> string -> outcome image;
  Image_resize : image -> nat * nat -> outcome image;
  Image_verify : image -> outcome unit
}.

(** [xs[i]] on a Python list. *)
Definition list_getitem {S A} (xs : list A) (i : nat) : M S A :=
  match nth_error xs i with
  | Some x => ret x
  | None => raise (Exn IndexError "list index out of range")
  end.

(** [a[0]] on a numpy array, [a] given as the list of its entries along the
    first axis. *)
Definition np_getitem0 {S A} (a : list A) : M S A :=
  match a with
  | x :: _ => ret x
  | [] => raise (Exn IndexError "index 0 is out of bounds for axis 0 with size 0")
  end.

Local Open Scope py_scope.

(** * utils.py *)
Module utils.

Section WithEnv.
Context {F : Type} {PF : PyFloat F} {E : Env F}.

(** The fields [__init__] gives an instance. *)
Record MushroomClassifier : Type := {
  model_path : string;
  img_size : nat * nat;               (* (width, height) *)
  class_names : list string;
  model : option (keras_model F)
}.

(** [self.model = m] *)
Definition set_model (m : option (keras_model F)) : M MushroomClassifier unit :=
  self <- get ;;
  put {| model_path := model_path self;
         img_size := img_size self;
         class_names := class_names self;
         model := m |}.

Definition print (msg : string) : M MushroomClassifier unit := emit (EvPrint msg).

(** [MushroomClassifier.load_model] *)
Definition load_model : M MushroomClassifier bool :=
  try_except
    (self <- get ;;
     found <- call (EvPathExists (model_path self))
                   (Return (os_path_exists (model_path self))) ;;
     if negb found then
       raise (Exn FileNotFoundError
                  ("Model file not found: " ++ model_path self)%string)
     else
       print ("Loading model from " ++ model_path self ++ "...")%string ;;
       m <- call (EvLoadModel (model_path self))
                 (keras_load_model (model_path self)) ;;
       set_model (Some m) ;;
       print "Model loaded successfully!" ;;
       ret true)
    (fun e =>
       print ("Error loading model: " ++ exn_msg e)%string ;;
       set_model None ;;
       ret false).

(** [MushroomClassifier.__init__]: the new object replaces the state. *)
Definition __init__ (model_path : string) (img_size : nat * nat)
  : M MushroomClassifier unit :=
  put {| model_path := model_path;
         img_size := img_size;
         class_names := ["Edible"; "Poisonous"]%string;
         model := None |} ;;
  _ <- load_model ;;
  ret tt.

(** [MushroomClassifier.preprocess_image] *)
Definition preprocess_image (image : py_image) : M MushroomClassifier (ndarray Q) :=
  self <- get ;;
  image <- match image with
           | PyStr path => call (EvImageOpen path) (Image_open path)
           | PyArray a => call EvFromArray (Image_fromarray (astype_uint8 a))
           | PyImage im => ret im
           | PyOther =>
               raise (Exn ValueError
                          "Image must be PIL Image, numpy array, or file path")
           end ;;
  image <- (if negb (String.eqb (mode image) "RGB")
            then call (EvConvert "RGB") (Image_convert image "RGB")
            else ret image) ;;
  image <- call (EvResize (img_size self)) (Image_resize image (img_size self)) ;;
  let img_array := np_array image in
  let img_array := astype_float32_div255 img_array in
  let img_array := expand_dims0 img_array in
  ret img_array.

Record probabilities_dict : Type := {
  edible : F;
  poisonous : F
}.

(** The dictionary [predict] returns. *)
Record result : Type := {
  prediction : string;
  confidence : F;
  probabilities : probabilities_dict;
  is_poisonous : bool
}.

(** [MushroomClassifier.predict] *)
Definition predict (image : py_image) (return_probs : bool)
  : M MushroomClassifier result :=
  self <- get ;;
  match model self with
  | None => raise (Exn RuntimeError "Model not loaded. Cannot make predictions.")
  | Some _ =>
      try_except
        (processed_image <- preprocess_image image ;;
         self <- get ;;
         prediction <- match model self with
                       | Some m => call EvModelPredict
                                        (model_predict m processed_image)
                       | None => raise (Exn AttributeError
                                   "'NoneType' object has no attribute 'predict'")
                       end ;;
         row <- np_getitem0 prediction ;;
         poisonous_prob <- np_getitem0 row ;;
         let edible_prob := f_sub f_one poisonous_prob in
         predicted_class <- (if f_gt poisonous_prob f_half
                             then list_getitem (class_names self) 1
                             else list_getitem (class_names self) 0) ;;
         let confidence := pymax poisonous_prob edible_prob in
         let result := {| prediction := predicted_class;
                          confidence := confidence;
                          probabilities := {| edible := edible_prob;
                                              poisonous := poisonous_prob |};
                          is_poisonous := f_gt poisonous_prob f_half |} in
         ret result)
        (fun e => raise (Exn RuntimeError
                             ("Prediction failed: " ++ exn_msg e)%string))
  end.

(** An element of the list [predict_batch] returns: a result dictionary
    or [{'error': str(e)}]. *)
Inductive batch_item : Type :=
| ItemResult (r : result)
| ItemError (error : string).

(** The [for image in images] loop of [predict_batch], [results] being the
    list built so far. *)
Fixpoint predict_batch_loop (images : list py_image) (results : list batch_item)
  : M MushroomClassifier (list batch_item) :=
  match images with
  | [] => ret results
  | image :: images' =>
      results <- try_except
                   (result <- predict image false ;;
                    ret (results ++ [ItemResult result]))
                   (fun e => ret (results ++ [ItemError (exn_msg e)])) ;;
      predict_batch_loop images' results
  end.

(** [MushroomClassifier.predict_batch] *)
Definition predict_batch (images : list py_image)
  : M MushroomClassifier (list batch_item) :=
  self <- get ;;
  match model self with
  | None => raise (Exn RuntimeError "Model not loaded. Cannot make predictions.")
  | Some _ => predict_batch_loop images []
  end.

(** [preprocess_image_simple], a module level function. *)
Definition preprocess_image_simple (image_path : string) (img_size : nat * nat)
  : M unit (ndarray Q) :=
  image <- call (EvImageOpen image_path) (Image_open image_path) ;;
  image <- (if negb (String.eqb (mode image) "RGB")
            then call (EvConvert "RGB") (Image_convert image "RGB")
            else ret image) ;;
  image <- call (EvResize img_size) (Image_resize image img_size) ;;
  let img_array := astype_float32_div255 (np_array image) in
  let img_array := expand_dims0 img_array in
  ret img_array.

Context {B : PyBuiltins F}.

(** [format_prediction_output]. The dictionary is one [predict] returned or
    one element of the list of [predict_batch]; an error entry has no key
    ['prediction']. *)
Definition format_prediction_output (prediction_dict : batch_item) (detailed : bool)
  : M unit string :=
  match prediction_dict with
  | ItemError _ => raise (Exn KeyError "'prediction'")
  | ItemResult d =>
      let prediction := prediction d in
      let confidence := f_mul (confidence d) f_hundred in
      let emoji := (if is_poisonous d then "☠️" else "✅")%string in
      let output := (emoji ++ " Prediction: " ++ prediction ++ nl)%string in
      let output := (output ++ "Confidence: " ++ format_2f confidence ++ "%" ++ nl)%string in
      if detailed then
        let edible_prob := f_mul (edible (probabilities d)) f_hundred in
        let poisonous_prob := f_mul (poisonous (probabilities d)) f_hundred in
        let output := (output ++ nl ++ "Detailed Probabilities:" ++ nl)%string in
        let output := (output ++ "  🟢 Edible: " ++ format_2f edible_prob ++ "%" ++ nl)%string in
        let output := (output ++ "  🔴 Poisonous: " ++ format_2f poisonous_prob ++ "%" ++ nl)%string in
        ret output
      else
        ret output
  end.

(** [validate_image]: the pair [(is_valid, error_message)]; [max_size_mb] is
    an [int], as its default 16 is. *)
Definition validate_image (image_path : string) (max_size_mb : Z)
  : M unit (bool * option string) :=
  found <- call (EvPathExists image_path) (Return (os_path_exists image_path)) ;;
  if negb found then
    ret (false, Some "File does not exist"%string)
  else
    size <- call (EvGetSize image_path) (os_path_getsize image_path) ;;
    let file_size_mb := int_truediv size (1024 * 1024) in
    if f_gt_int file_size_mb max_size_mb then
      ret (false, Some ("File too large (" ++ format_2f file_size_mb ++ "MB). Max size: "
                        ++ str_int max_size_mb ++ "MB")%string)
    else
      try_except
        (image <- call (EvImageOpen image_path) (Image_open image_path) ;;
         call EvVerify (Image_verify image) ;;
         ret (true, None))
        (fun e => ret (false, Some ("Invalid image file: " ++ exn_msg e)%string)).

End WithEnv.

Arguments MushroomClassifier F : clear implicits.
Arguments result F : clear implicits.
Arguments batch_item F : clear implicits.
Arguments probabilities_dict F : clear implicits.

End utils.

(** * streamlit_app.py

    Module level functions: the state is [unit]. [load_model] is the body
    that [@st.cache_resource] memoises. *)
Module streamlit_app.

Section WithEnv.
Context {F : Type} {PF : PyFloat F} {E : Env F}.

Definition MODEL_PATH : string := "mushroom_model.h5".
Definition IMG_SIZE : nat * nat := (224, 224)%nat.
Definition CLASS_NAMES : list string := ["Edible"; "Poisonous"]%string.

Definition st_error (msg : string) : M unit unit := emit (EvStError msg).
Definition st_info (msg : string) : M unit unit := emit (EvStInfo msg).

(** [load_model]: the model, or [None]. *)
Definition load_model : M unit (option (keras_model F)) :=
  try_except
    (found <- call (EvPathExists MODEL_PATH) (Return (os_path_exists MODEL_PATH)) ;;
     if negb found then
       st_error ("❌ Model file not found at: " ++ MODEL_PATH)%string ;;
       st_info "Please ensure 'mushroom_model.h5' is in the same directory as this script." ;;
       ret None
     else
       model <- call (EvLoadModel MODEL_PATH) (keras_load_model MODEL_PATH) ;;
       ret (Some model))
    (fun e =>
       st_error ("Error loading model: " ++ exn_msg e)%string ;;
       ret None).

(** [preprocess_image]: the array, or [None]. What is not an array is
    asked for its [mode], which a string does not have, nor any other object
    that is not an image (its message names the type of the object). *)
Definition preprocess_image (image : py_image) : M unit (option (ndarray Q)) :=
  try_except
    (image <- match image with
              | PyArray a => call EvFromArray (Image_fromarray (astype_uint8 a))
              | PyImage im => ret im
              | PyStr _ =>
                  raise (Exn AttributeError "'str' object has no attribute 'mode'")
              | PyOther =>
                  raise (Exn AttributeError "object has no attribute 'mode'")
              end ;;
     image <- (if negb (String.eqb (mode image) "RGB")
               then call (EvConvert "RGB") (Image_convert image "RGB")
               else ret image) ;;
     image <- call (EvResize IMG_SIZE) (Image_resize image IMG_SIZE) ;;
     let img_array := np_array image in
     let img_array := astype_float32_div255 img_array in
     let img_array := expand_dims0 img_array in
     ret (Some img_array))
    (fun e =>
       st_error ("Error preprocessing image: " ++ exn_msg e)%string ;;
       ret None).

(** The dictionary [predict_mushroom] returns. *)
Record result : Type := {
  prediction : string;
  confidence : F;
  edible_prob : F;
  poisonous_prob : F;
  is_poisonous : bool
}.

(** [predict_mushroom]: the result dictionary, or [None]. *)
Definition predict_mushroom (model : keras_model F) (image : py_image)
  : M unit (option result) :=
  try_except
    (processed_image <- preprocess_image image ;;
     match processed_image with
     | None => ret None
     | Some processed_image =>
         prediction <- (emit (EvStSpinner "Analyzing mushroom...") ;;
                        call EvModelPredict (model_predict model processed_image)) ;;
         row <- np_getitem0 prediction ;;
         poisonous_prob <- np_getitem0 row ;;
         let edible_prob := f_sub f_one poisonous_prob in
         let predicted_class :=
           (if f_gt poisonous_prob f_half then "Poisonous" else "Edible")%string in
         let confidence := f_mul (pymax poisonous_prob edible_prob) f_hundred in
         let result := {| prediction := predicted_class;
                          confidence := confidence;
                          edible_prob := f_mul edible_prob f_hundred;
                          poisonous_prob := f_mul poisonous_prob f_hundred;
                          is_poisonous := f_gt poisonous_prob f_half |} in
         ret (Some result)
     end)
    (fun e =>
       st_error ("Error during prediction: " ++ exn_msg e)%string ;;
       ret None).

End WithEnv.

Arguments result F : clear implicits.

End streamlit_app.

(** * A small environment to run the definitions on

    Test doubles for what is outside the repository: a model file, an image
    file and a file that is no image on disk, nearest-neighbour resampling in place of LANCZOS, and
    a model that answers the same batch whatever it is given. *)
Module Demo.

Definition stub_model {F} (answer : outcome (list (list F))) : keras_model F :=
  {| model_predict := fun _ => answer |}.

(** A 2 x 2 greyscale image. *)
Definition cap : image :=
  {| mode := "L"; size := (2, 2)%nat; pixels := [x00; x40; x80; xff] |}.

Definition fromarray (a : ndarray byte) : outcome image :=
  match shape a with
  | [h; w] => Return {| mode := "L"; size := (w, h); pixels := data a |}
  | [h; w; 3%nat] => Return {| mode := "RGB"; size := (w, h); pixels := data a |}
  | [h; w; 4%nat] => Return {| mode := "RGBA"; size := (w, h); pixels := data a |}
  | _ => Raise (Exn TypeError "Cannot handle this data type")
  end.

(** Band [c] of pixel [i] of the converted image: the grey level for one or
    two bands, the first three bands otherwise. *)
Definition convert (im : image) (m : string) : outcome image :=
  if String.eqb m "RGB" then
    let n := nbands (mode im) in
    let '(w, h) := size im in
    Return {| mode := "RGB"; size := (w, h);
              pixels := flat_map
                          (fun i => map (fun c => nth (i * n + (if n <? 3 then 0 else c))
                                                      (pixels im) x00)
                                        (seq 0 3))
                          (seq 0 (h * w)) |}
  else Raise (Exn ValueError "conversion not supported").

Definition resize (im : image) (sz : nat * nat) : outcome image :=
  let n := nbands (mode im) in
  let '(w0, h0) := size im in
  let '(w, h) := sz in
  if ((w =? 0) || (h =? 0))%nat then
    Raise (Exn ValueError "height and width must be > 0")
  else
    Return {| mode := mode im; size := (w, h);
              pixels := flat_map
                          (fun y => flat_map
                             (fun x => map (fun c => nth (((y * h0 / h) * w0 + x * w0 / w) * n + c)
                                                         (pixels im) x00)
                                           (seq 0 n))
                             (seq 0 w))
                          (seq 0 h) |}.

(** The files: the model, a small image, and a file of 32 MB that is no
    image. *)
Definition env {F} (answer : outcome (list (list F))) : Env F :=
  {| os_path_exists := fun p =>
       (String.eqb p "mushroom_model.h5" || String.eqb p "cap.png"
        || String.eqb p "atlas.bin")%bool;
     os_path_getsize := fun p =>
       if String.eqb p "cap.png" then Return 1234%Z
       else if String.eqb p "atlas.bin" then Return 33554432%Z
       else if String.eqb p "mushroom_model.h5" then Return 16777216%Z
       else Raise (Exn FileNotFoundError "No such file or directory");
     keras_load_model := fun _ => Return (stub_model answer);
     Image_open := fun p => if String.eqb p "cap.png" then Return cap
                            else Raise (Exn OSError "cannot identify image file");
     Image_fromarray := fromarray;
     Image_convert := convert;
     Image_resize := resize;
     Image_verify := fun _ => Return tt |}.

(** A classifier as [__init__] leaves it when the model file loads. *)
Definition classifier {F} (answer : outcome (list (list F))) (sz : nat * nat)
  : utils.MushroomClassifier F :=
  {| utils.model_path := "mushroom_model.h5";
     utils.img_size := sz;
     utils.class_names := ["Edible"; "Poisonous"]%string;
     utils.model := Some (stub_model answer) |}.

End Demo.

(** * Vocabulary of the statements *)

(** A computation that hands back the state it was given. *)
Definition preserves {S A} (m : M S A) : Prop := forall s, state_of (m s) = s.

(** A computation that ends with a value, never with an exception. *)
Definition no_raise {S A} (m : M S A) : Prop :=
  forall s, exists a, outcome_of (m s) = Return a.

(** The operations that can fail and could be tried again. *)
Inductive operation : Type :=
| OpPathExists | OpGetSize | OpLoadModel | OpImageOpen | OpFromArray
| OpConvert | OpResize | OpVerify | OpModelPredict.

Definition is_call (o : operation) (ev : event) : bool :=
  match o, ev with
  | OpPathExists, EvPathExists _ => true
  | OpGetSize, EvGetSize _ => true
  | OpLoadModel, EvLoadModel _ => true
  | OpImageOpen, EvImageOpen _ => true
  | OpFromArray, EvFromArray => true
  | OpConvert, EvConvert _ => true
  | OpResize, EvResize _ => true
  | OpVerify, EvVerify => true
  | OpModelPredict, EvModelPredict => true
  | _, _ => false
  end.

(** How many times operation [o] was called in a run. *)
Definition calls (o : operation) (evs : list event) : nat :=
  length (filter (is_call o) evs).


(** [prediction[0][0]] of what model [m] answers on [t] is [p]. *)
Definition model_output {F} (m : keras_model F) (t : ndarray Q) (p : F) : Prop :=
  exists tail rows, model_predict m t = Return ((p :: tail) :: rows).

(** What Pillow promises for an image that is not corrupt: conversion to RGB
    and resizing to a positive size succeed and give an image of the mode and
    size asked for. *)
Record PillowContract {F} (E : Env F) : Prop := {
  convert_RGB_ok : forall im,
    well_formed im ->
    exists im', Image_convert im "RGB" = Return im' /\
                mode im' = "RGB"%string /\ size im' = size im /\ well_formed im';
  resize_ok : forall im w h,
    well_formed im -> (0 < w)%nat -> (0 < h)%nat ->
    exists im', Image_resize im (w, h) = Return im' /\
                mode im' = mode im /\ size im' = (w, h) /\ well_formed im'
}.

(** The image an input stands for, once opened. *)
Definition opens_as {F} {E : Env F} (input : py_image) (im : image) : Prop :=
  match input with
  | PyStr path => Image_open path = Return im
  | PyArray a => Image_fromarray (astype_uint8 a) = Return im
  | PyImage im0 => im0 = im
  | PyOther => False
  end.

(** An entry of a preprocessed array: a pixel value 0..255 over 255. *)
Definition unit_scaled (x : Q) : Prop :=
  (0 <= x /\ x <= 1)%Q /\
  exists k : Z, (0 <= k <= 255)%Z /\ x = (inject_Z k / 255)%Q.

(** [predict] on [image] reads [p] as [prediction[0][0]]: the model is
    loaded, preprocessing returns, and the model answers [p] on its array. *)
Definition utils_reads {F} {PF : PyFloat F} {E : Env F}
    (self : utils.MushroomClassifier F) (image : py_image) (p : F) : Prop :=
  exists m t,
    utils.model self = Some m /\
    outcome_of (utils.preprocess_image image self) = Return t /\
    model_output m t p.

(** [predict_mushroom] on [image] reads [p] as [prediction[0][0]]. *)
Definition app_reads {F} {PF : PyFloat F} {E : Env F}
    (model : keras_model F) (image : py_image) (p : F) : Prop :=
  exists t,
    outcome_of (streamlit_app.preprocess_image image tt) = Return (Some t) /\
    model_output model t p.

(** The element [predict_batch] stores for one image. *)
Definition item_of {F} {PF : PyFloat F} {E : Env F}
    (self : utils.MushroomClassifier F) (image : py_image) : utils.batch_item F :=
  match outcome_of (utils.predict image false self) with
  | Return r => utils.ItemResult r
  | Raise e => utils.ItemError (exn_msg e)
  end.

(** The dictionary [predict] builds from [p = prediction[0][0]] and the
    class name it picked. *)
Definition utils_result {F} {PF : PyFloat F} (name : string) (p : F) : utils.result F :=
  {| utils.prediction := name;
     utils.confidence := pymax p (f_sub f_one p);
     utils.probabilities := {| utils.edible := f_sub f_one p;
                               utils.poisonous := p |};
     utils.is_poisonous := f_gt p f_half |}.

(** The dictionary [predict_mushroom] builds from [p]. *)
Definition app_result {F} {PF : PyFloat F} (p : F) : streamlit_app.result F :=
  {| streamlit_app.prediction :=
       (if f_gt p f_half then "Poisonous" else "Edible")%string;
     streamlit_app.confidence := f_mul (pymax p (f_sub f_one p)) f_hundred;
     streamlit_app.edible_prob := f_mul (f_sub f_one p) f_hundred;
     streamlit_app.poisonous_prob := f_mul p f_hundred;
     streamlit_app.is_poisonous := f_gt p f_half |}.

(** A dictionary of [predict] with its numbers as percentages, in the layout
    of the dictionary of [predict_mushroom]. *)
Definition in_percent {F} {PF : PyFloat F} (r : utils.result F) : streamlit_app.result F :=
  {| streamlit_app.prediction := utils.prediction r;
     streamlit_app.confidence := f_mul (utils.confidence r) f_hundred;
     streamlit_app.edible_prob := f_mul (utils.edible (utils.probabilities r)) f_hundred;
     streamlit_app.poisonous_prob :=
       f_mul (utils.poisonous (utils.probabilities r)) f_hundred;
     streamlit_app.is_poisonous := utils.is_poisonous r |}.

(** The class names [__init__] sets. *)
Definition default_class_names : list string := ["Edible"; "Poisonous"]%string.

(** A method call on a classifier, and the state a sequence of calls leaves
    (a raised exception is caught by the caller, the object stays). *)
Inductive method_call {F : Type} : Type :=
| CallLoadModel
| CallPreprocess (image : py_image)
| CallPredict (image : py_image) (return_probs : bool)
| CallPredictBatch (images : list py_image).
Arguments method_call F : clear implicits.

Definition after_call {F} {PF : PyFloat F} {E : Env F}
    (self : utils.MushroomClassifier F) (c : method_call F) : utils.MushroomClassifier F :=
  match c with
  | CallLoadModel => state_of (utils.load_model self)
  | CallPreprocess image => state_of (utils.preprocess_image image self)
  | CallPredict image rp => state_of (utils.predict image rp self)
  | CallPredictBatch images => state_of (utils.predict_batch images self)
  end.

Definition after_calls {F} {PF : PyFloat F} {E : Env F}
    (self : utils.MushroomClassifier F) (cs : list (method_call F))
  : utils.MushroomClassifier F :=
  fold_left after_call cs self.

(** [MushroomClassifier(model_path, img_size)]: the object [__init__]
    builds; what the fresh object held before does not matter. *)
Definition new_classifier {F} {PF : PyFloat F} {E : Env F}
    (model_path : string) (img_size : nat * nat) : utils.MushroomClassifier F :=
  state_of (utils.__init__ model_path img_size
              {| utils.model_path := EmptyString; utils.img_size := (0, 0)%nat;
                 utils.class_names := []; utils.model := None |}).

(** * Tactics *)

(** Unfold the monad down to the case analyses the code makes. *)
Ltac unfold_monad :=
  cbv beta iota zeta delta
    [bind ret raise try_except get put call emit list_getitem np_getitem0
     utils.print utils.set_model streamlit_app.st_error streamlit_app.st_info] in *.

Ltac simpl_run := cbn [outcome_of state_of events_of app] in *.

(** Case analysis on the next thing the code inspects. *)
Ltac step :=
  match goal with
  | |- context [match ?x with _ => _ end] =>
      lazymatch x with
      | context [match _ with _ => _ end] => fail
      | _ => destruct x eqn:?
      end
  end; simpl_run.

Ltac steps := simpl_run; try reflexivity; repeat (step; try reflexivity).

(** Every path of a function whose calls are all unfolded. *)
Ltac crunch := unfold_monad; simpl_run; repeat step.

(** [calls o evs <= 1] on a list of events that is written out. *)
Ltac count_calls :=
  match goal with
  | o : operation |- _ => destruct o; cbn; lia
  end.


(** * Properties *)

(** ** Running the monad *)

Section MonadFacts.
Context {S : Type}.

Lemma preserves_ret A (a : A) : preserves (ret a : M S A).
Proof. intros s. reflexivity. Qed.

Lemma preserves_raise A (e : exn) : preserves (raise e : M S A).
Proof. intros s. reflexivity. Qed.

Lemma preserves_get : preserves (get : M S S).
Proof. intros s. reflexivity. Qed.

Lemma preserves_call A ev (r : outcome A) : preserves (call ev r : M S A).
Proof. intros s. reflexivity. Qed.

Lemma preserves_emit ev : preserves (emit ev : M S unit).
Proof. intros s. reflexivity. Qed.

Lemma preserves_list_getitem A (xs : list A) i : preserves (list_getitem xs i : M S A).
Proof. intros s. unfold list_getitem. destruct (nth_error xs i); reflexivity. Qed.

Lemma preserves_np_getitem0 A (xs : list A) : preserves (np_getitem0 xs : M S A).
Proof. intros s. destruct xs; reflexivity. Qed.

Lemma preserves_bind A B (m : M S A) (k : A -> M S B) :
  preserves m -> (forall a, preserves (k a)) -> preserves (bind m k).
Proof.
  intros Hm Hk s. unfold bind. specialize (Hm s).
  destruct (m s) as [[a|e] s1 ev1]; cbn in Hm; subst s1.
  - specialize (Hk a s). destruct (k a s) as [r s2 ev2]. exact Hk.
  - reflexivity.
Qed.

Lemma preserves_try_except A (body : M S A) (handler : exn -> M S A) :
  preserves body -> (forall e, preserves (handler e)) ->
  preserves (try_except body handler).
Proof.
  intros Hb Hh s. unfold try_except. specialize (Hb s).
  destruct (body s) as [[a|e] s1 ev1]; cbn in Hb; subst s1.
  - reflexivity.
  - specialize (Hh e s). destruct (handler e s) as [r s2 ev2]. exact Hh.
Qed.

Lemma no_raise_ret A (a : A) : no_raise (ret a : M S A).
Proof. intros s. now exists a. Qed.

Lemma no_raise_emit ev : no_raise (emit ev : M S unit).
Proof. intros s. now exists tt. Qed.

Lemma no_raise_put s' : no_raise (put s' : M S unit).
Proof. intros s. now exists tt. Qed.

Lemma no_raise_get : no_raise (get : M S S).
Proof. intros s. now exists s. Qed.

Lemma no_raise_bind A B (m : M S A) (k : A -> M S B) :
  no_raise m -> (forall a, no_raise (k a)) -> no_raise (bind m k).
Proof.
  intros Hm Hk s. unfold bind. destruct (Hm s) as [a Ha].
  destruct (m s) as [[a'|e] s1 ev1]; cbn in Ha; [|discriminate].
  destruct (Hk a' s1) as [b Hb]. destruct (k a' s1) as [r s2 ev2].
  exists b. exact Hb.
Qed.

(** Whatever the body does, a handler that returns makes the whole
    statement return. *)
Lemma no_raise_try_except A (body : M S A) (handler : exn -> M S A) :
  (forall e, no_raise (handler e)) -> no_raise (try_except body handler).
Proof.
  intros Hh s. unfold try_except.
  destruct (body s) as [[a|e] s1 ev1].
  - now exists a.
  - destruct (Hh e s1) as [b Hb]. destruct (handler e s1) as [r s2 ev2].
    exists b. exact Hb.
Qed.

(** The three components of a sequence and of a [try]. *)
Lemma outcome_bind A B (m : M S A) (k : A -> M S B) s :
  outcome_of (bind m k s)
  = match outcome_of (m s) with
    | Return a => outcome_of (k a (state_of (m s)))
    | Raise e => Raise e
    end.
Proof.
  unfold bind. destruct (m s) as [[a|e] s1 ev1]; cbn; [|reflexivity].
  destruct (k a s1); reflexivity.
Qed.

Lemma state_bind A B (m : M S A) (k : A -> M S B) s :
  state_of (bind m k s)
  = match outcome_of (m s) with
    | Return a => state_of (k a (state_of (m s)))
    | Raise e => state_of (m s)
    end.
Proof.
  unfold bind. destruct (m s) as [[a|e] s1 ev1]; cbn; [|reflexivity].
  destruct (k a s1); reflexivity.
Qed.

Lemma events_bind A B (m : M S A) (k : A -> M S B) s :
  events_of (bind m k s)
  = events_of (m s) ++
    match outcome_of (m s) with
    | Return a => events_of (k a (state_of (m s)))
    | Raise e => []
    end.
Proof.
  unfold bind. destruct (m s) as [[a|e] s1 ev1]; cbn.
  - destruct (k a s1); reflexivity.
  - now rewrite app_nil_r.
Qed.

Lemma outcome_try_except A (body : M S A) (handler : exn -> M S A) s :
  outcome_of (try_except body handler s)
  = match outcome_of (body s) with
    | Return a => Return a
    | Raise e => outcome_of (handler e (state_of (body s)))
    end.
Proof.
  unfold try_except. destruct (body s) as [[a|e] s1 ev1]; cbn; [reflexivity|].
  destruct (handler e s1); reflexivity.
Qed.

Lemma events_try_except A (body : M S A) (handler : exn -> M S A) s :
  events_of (try_except body handler s)
  = events_of (body s) ++
    match outcome_of (body s) with
    | Return a => []
    | Raise e => events_of (handler e (state_of (body s)))
    end.
Proof.
  unfold try_except. destruct (body s) as [[a|e] s1 ev1]; cbn.
  - now rewrite app_nil_r.
  - destruct (handler e s1); reflexivity.
Qed.

End MonadFacts.

Create HintDb frame.
#[local] Hint Resolve preserves_ret preserves_raise preserves_get preserves_call
  preserves_emit preserves_list_getitem preserves_np_getitem0 : frame.
#[local] Hint Extern 2 (preserves (bind _ _)) =>
  apply preserves_bind; [|intro] : frame.
#[local] Hint Extern 2 (preserves (try_except _ _)) =>
  apply preserves_try_except; [|intro] : frame.
#[local] Hint Extern 3 (preserves (match ?x with _ => _ end)) => destruct x : frame.

(** ** The prediction methods leave the object alone *)
Section Frame.
Context {F : Type} {PF : PyFloat F} {E : Env F}.

Lemma preprocess_image_preserves (image : py_image) :
  preserves (utils.preprocess_image image).
Proof. unfold utils.preprocess_image. auto 20 with frame. Qed.

Lemma predict_preserves (image : py_image) (rp : bool) :
  preserves (utils.predict image rp).
Proof.
  pose proof preprocess_image_preserves.
  unfold utils.predict. auto 30 with frame.
Qed.

Lemma predict_batch_loop_preserves (images : list py_image) :
  forall results, preserves (utils.predict_batch_loop images results).
Proof.
  pose proof predict_preserves.
  induction images as [|image images IH]; intros results; cbn [utils.predict_batch_loop];
    auto 20 with frame.
Qed.

Lemma predict_batch_preserves (images : list py_image) :
  preserves (utils.predict_batch images).
Proof.
  pose proof predict_batch_loop_preserves.
  unfold utils.predict_batch. auto 20 with frame.
Qed.

End Frame.

(** ** What a run of the prediction functions looks like *)
Section Runs.
Context {F : Type} {PF : PyFloat F} {E : Env F}.




Lemma predict_not_loaded image rp (self : utils.MushroomClassifier F) :
  utils.model self = None ->
  utils.predict image rp self =
    Run (Raise (Exn RuntimeError "Model not loaded. Cannot make predictions."))
        self [].
Proof.
  intros Hm. unfold utils.predict. unfold_monad. rewrite Hm. reflexivity.
Qed.

(** The run of [predict] on a loaded classifier, step by step. *)
Lemma predict_loaded image rp (self : utils.MushroomClassifier F) m :
  utils.model self = Some m ->
  utils.predict image rp self =
    match utils.preprocess_image image self with
    | Run (Raise e) _ ev =>
        Run (Raise (Exn RuntimeError ("Prediction failed: " ++ exn_msg e))) self ev
    | Run (Return t) _ ev =>
        match model_predict m t with
        | Raise e =>
            Run (Raise (Exn RuntimeError ("Prediction failed: " ++ exn_msg e))) self
                (ev ++ [EvModelPredict])
        | Return [] | Return ([] :: _) =>
            Run (Raise (Exn RuntimeError
                   "Prediction failed: index 0 is out of bounds for axis 0 with size 0"))
                self (ev ++ [EvModelPredict])
        | Return ((p :: _) :: _) =>
            match nth_error (utils.class_names self) (if f_gt p f_half then 1 else 0) with
            | Some name => Run (Return (utils_result name p)) self (ev ++ [EvModelPredict])
            | None =>
                Run (Raise (Exn RuntimeError "Prediction failed: list index out of range"))
                    self (ev ++ [EvModelPredict])
            end
        end
    end.
Proof.
  intros Hm. pose proof (preprocess_image_preserves image self) as Hs.
  unfold utils.predict. unfold_monad. rewrite Hm.
  destruct (utils.preprocess_image image self) as [[t|e] s1 ev1];
    cbn [state_of] in Hs; subst s1.
  - rewrite Hm. destruct (model_predict m t) as [[|[|p tl] rows]|e]; simpl_run;
      rewrite ?app_nil_r; try reflexivity.
    unfold utils_result.
    destruct (f_gt p f_half);
      destruct (nth_error (utils.class_names self) _); simpl_run;
      rewrite ?app_nil_r; reflexivity.
  - rewrite app_nil_r. reflexivity.
Qed.

(** A successful run of [predict]: the model answered [p], and the class
    name was found in [class_names]. *)
Lemma predict_Return_inv image rp (self : utils.MushroomClassifier F) r :
  outcome_of (utils.predict image rp self) = Return r ->
  exists p name,
    utils_reads self image p /\
    nth_error (utils.class_names self) (if f_gt p f_half then 1 else 0) = Some name /\
    r = utils_result name p.
Proof.
  destruct (utils.model self) as [m|] eqn:Hm.
  - rewrite (predict_loaded image rp self Hm). unfold utils_reads, model_output.
    rewrite Hm.
    destruct (utils.preprocess_image image self) as [[t|e] s1 ev1]; simpl_run;
      [|discriminate].
    destruct (model_predict m t) as [[|[|p tl] rows]|e] eqn:Hp; simpl_run;
      try discriminate.
    destruct (nth_error _ _) as [name|] eqn:Hn; simpl_run; [|discriminate].
    intros Hr. injection Hr as <-. exists p, name. eauto 10.
  - rewrite (predict_not_loaded image rp self Hm). discriminate.
Qed.

(** Conversely, these steps succeeding is enough for [predict] to return. *)
Lemma predict_Return_intro image rp (self : utils.MushroomClassifier F) p name :
  utils_reads self image p ->
  nth_error (utils.class_names self) (if f_gt p f_half then 1 else 0) = Some name ->
  outcome_of (utils.predict image rp self) = Return (utils_result name p).
Proof.
  intros (m & t & Hm & Ht & tl & rows & Hp) Hn.
  rewrite (predict_loaded image rp self Hm).
  destruct (utils.preprocess_image image self) as [o s1 ev1]; simpl_run. subst o.
  rewrite Hp, Hn. reflexivity.
Qed.


(** The run of [predict_mushroom], step by step. *)
Lemma predict_mushroom_run (model : keras_model F) image :
  streamlit_app.predict_mushroom model image tt =
    match streamlit_app.preprocess_image image tt with
    | Run (Raise e) _ ev =>
        Run (Return None) tt (ev ++ [EvStError ("Error during prediction: " ++ exn_msg e)])
    | Run (Return None) _ ev => Run (Return None) tt ev
    | Run (Return (Some t)) _ ev =>
        let ev' := ev ++ [EvStSpinner "Analyzing mushroom..."; EvModelPredict] in
        match model_predict model t with
        | Raise e =>
            Run (Return None) tt
                (ev' ++ [EvStError ("Error during prediction: " ++ exn_msg e)])
        | Return [] | Return ([] :: _) =>
            Run (Return None) tt
                (ev' ++ [EvStError
                   "Error during prediction: index 0 is out of bounds for axis 0 with size 0"])
        | Return ((p :: _) :: _) => Run (Return (Some (app_result p))) tt ev'
        end
    end.
Proof.
  unfold streamlit_app.predict_mushroom. unfold_monad.
  destruct (streamlit_app.preprocess_image image tt) as [[[t|]|e] [] ev1]; simpl_run.
  - destruct (model_predict model t) as [[|[|p tl] rows]|e]; simpl_run;
      rewrite ?app_nil_r; reflexivity.
  - rewrite app_nil_r. reflexivity.
  - reflexivity.
Qed.

(** A successful run of [predict_mushroom]. *)
Lemma predict_mushroom_Some_inv (model : keras_model F) image r :
  outcome_of (streamlit_app.predict_mushroom model image tt) = Return (Some r) ->
  exists p, app_reads model image p /\ r = app_result p.
Proof.
  rewrite predict_mushroom_run. unfold app_reads, model_output.
  destruct (streamlit_app.preprocess_image image tt) as [[[t|]|e] s1 ev1]; simpl_run;
    try discriminate.
  destruct (model_predict model t) as [[|[|p tl] rows]|e] eqn:Hp; simpl_run;
    try discriminate.
  intros Hr. injection Hr as <-. exists p. eauto 10.
Qed.

Lemma predict_mushroom_Some_intro (model : keras_model F) image p :
  app_reads model image p ->
  outcome_of (streamlit_app.predict_mushroom model image tt)
  = Return (Some (app_result p)).
Proof.
  intros (t & Ht & tl & rows & Hp). rewrite predict_mushroom_run.
  destruct (streamlit_app.preprocess_image image tt) as [o s1 ev1]; simpl_run. subst o.
  rewrite Hp. reflexivity.
Qed.

End Runs.

(** ** Preprocessing *)

Lemma Z_of_uint8_range (b : byte) : (0 <= Z_of_uint8 b <= 255)%Z.
Proof.
  unfold Z_of_uint8. pose proof (Byte.to_N_bounded b). lia.
Qed.

Lemma normalize_pixel_unit_scaled (b : byte) : unit_scaled (normalize_pixel b).
Proof.
  pose proof (Z_of_uint8_range b) as Hb.
  unfold unit_scaled, normalize_pixel. split.
  - unfold Qle, Qdiv, Qmult, Qinv, inject_Z. cbn. lia.
  - exists (Z_of_uint8 b). split; [exact Hb|reflexivity].
Qed.

(** The array made from a resized RGB image. *)
Lemma array_of_RGB (im : image) (w h : nat) :
  mode im = "RGB"%string -> size im = (w, h) -> well_formed im ->
  let t := expand_dims0 (astype_float32_div255 (np_array im)) in
  shape t = [1; h; w; 3]%nat /\
  length (data t) = (h * w * 3)%nat /\
  Forall unit_scaled (data t).
Proof.
  intros Hmode Hsize Hwf. unfold well_formed in Hwf.
  unfold np_array. rewrite Hsize in *. rewrite Hmode in *. cbn in *.
  repeat split.
  - rewrite length_map. exact Hwf.
  - apply Forall_map. apply Forall_forall. intros b _.
    apply normalize_pixel_unit_scaled.
Qed.

Section Preprocessing.
Context {F : Type} {PF : PyFloat F} {E : Env F}.

(** What the three preprocessors do once the input is an opened image:
    convert unless RGB, resize, turn into an array. *)
Lemma prepared_ok (im : image) (w h : nat) :
  PillowContract E -> well_formed im -> (0 < w)%nat -> (0 < h)%nat ->
  exists im1 im2,
    (if negb (String.eqb (mode im) "RGB") then Image_convert im "RGB" else Return im)
    = Return im1 /\
    Image_resize im1 (w, h) = Return im2 /\
    mode im2 = "RGB"%string /\ size im2 = (w, h) /\ well_formed im2.
Proof.
  intros HP Hwf Hw Hh.
  assert (exists im1,
    (if negb (String.eqb (mode im) "RGB") then Image_convert im "RGB" else Return im)
    = Return im1 /\ mode im1 = "RGB"%string /\ well_formed im1) as (im1 & H1 & Hm1 & Hwf1).
  { destruct (String.eqb (mode im) "RGB") eqn:Hrgb; cbn.
    - exists im. apply String.eqb_eq in Hrgb. auto.
    - destruct (convert_RGB_ok HP Hwf) as (im1 & Hc & Hm & _ & Hwf1). eauto. }
  destruct (resize_ok HP Hwf1 Hw Hh) as (im2 & Hr & Hm2 & Hs2 & Hwf2).
  exists im1, im2. rewrite Hm2. auto.
Qed.


Lemma preprocess_image_simple_ok path im w h :
  PillowContract E -> Image_open path = Return im -> well_formed im ->
  (0 < w)%nat -> (0 < h)%nat ->
  exists t,
    outcome_of (utils.preprocess_image_simple path (w, h) tt) = Return t /\
    shape t = [1; h; w; 3]%nat /\
    length (data t) = (h * w * 3)%nat /\
    Forall unit_scaled (data t).
Proof.
  intros HP Ho Hwf Hw Hh.
  destruct (prepared_ok HP Hwf Hw Hh) as (im1 & im2 & H1 & H2 & Hm2 & Hs2 & Hwf2).
  exists (expand_dims0 (astype_float32_div255 (np_array im2))).
  split; [|exact (array_of_RGB Hm2 Hs2 Hwf2)].
  unfold utils.preprocess_image_simple. unfold_monad.
  rewrite Ho; simpl_run;
    destruct (negb (String.eqb (mode im) "RGB")); simpl_run;
    rewrite ?H1; simpl_run;
    try (injection H1 as <-); rewrite H2; reflexivity.
Qed.

Lemma app_preprocess_image_ok input im :
  PillowContract E -> opens_as input im -> well_formed im ->
  (forall path, input <> PyStr path) ->
  exists t,
    outcome_of (streamlit_app.preprocess_image input tt) = Return (Some t) /\
    shape t = [1; 224; 224; 3]%nat /\
    length (data t) = (224 * 224 * 3)%nat /\
    Forall unit_scaled (data t).
Proof.
  intros HP Ho Hwf Hnp.
  destruct (@prepared_ok im 224 224 HP Hwf ltac:(lia) ltac:(lia))
    as (im1 & im2 & H1 & H2 & Hm2 & Hs2 & Hwf2).
  exists (expand_dims0 (astype_float32_div255 (np_array im2))).
  split; [|exact (array_of_RGB Hm2 Hs2 Hwf2)].
  unfold streamlit_app.preprocess_image, streamlit_app.IMG_SIZE. unfold_monad.
  destruct input; cbn in Ho; try contradiction; try subst im0;
    [exfalso; eapply Hnp; reflexivity| |];
    try rewrite Ho; simpl_run;
    destruct (negb (String.eqb (mode im) "RGB")); simpl_run;
    rewrite ?H1; simpl_run;
    try (injection H1 as <-); rewrite H2; reflexivity.
Qed.

(** The preprocessor of the app returns what the method of the class
    returns when the class uses the size of the app; where the method raises,
    the app returns [None]. A path is the exception: the app does not open
    files. *)
Lemma app_preprocess_image_as_utils (self : utils.MushroomClassifier F) input :
  utils.img_size self = streamlit_app.IMG_SIZE ->
  (forall path, input <> PyStr path) ->
  outcome_of (streamlit_app.preprocess_image input tt)
  = match outcome_of (utils.preprocess_image input self) with
    | Return t => Return (Some t)
    | Raise _ => Return None
    end.
Proof.
  intros Hsz Hnp.
  unfold streamlit_app.preprocess_image, utils.preprocess_image. unfold_monad.
  rewrite Hsz.
  destruct input as [path|a|im|]; [exfalso; eapply Hnp; reflexivity| | |];
    steps.
Qed.

(** [preprocess_image_simple] is the method of the class on a path. *)
Lemma preprocess_image_simple_as_utils (self : utils.MushroomClassifier F) path :
  outcome_of (utils.preprocess_image_simple path (utils.img_size self) tt)
  = outcome_of (utils.preprocess_image (PyStr path) self) /\
  events_of (utils.preprocess_image_simple path (utils.img_size self) tt)
  = events_of (utils.preprocess_image (PyStr path) self).
Proof.
  unfold utils.preprocess_image_simple, utils.preprocess_image. unfold_monad.
  split; steps.
Qed.

(** On a path, [preprocess_image_simple] does what the preprocessor of the
    app does on the image opened from it. *)
Lemma preprocess_image_simple_as_app path im :
  Image_open path = Return im ->
  outcome_of (streamlit_app.preprocess_image (PyImage im) tt)
  = match outcome_of (utils.preprocess_image_simple path streamlit_app.IMG_SIZE tt) with
    | Return t => Return (Some t)
    | Raise _ => Return None
    end.
Proof.
  intros Ho.
  unfold streamlit_app.preprocess_image, utils.preprocess_image_simple. unfold_monad.
  rewrite Ho. steps.
Qed.

End Preprocessing.

(** ** The test doubles keep Pillow's promises *)

Lemma length_flat_map_const {A B} (f : A -> list B) (k : nat) (l : list A) :
  (forall x, length (f x) = k) -> length (flat_map f l) = (length l * k)%nat.
Proof.
  intros Hf. induction l as [|x l IH]; cbn.
  - reflexivity.
  - rewrite length_app, Hf, IH. reflexivity.
Qed.

Lemma Demo_convert_ok (im : image) :
  well_formed im ->
  exists im', Demo.convert im "RGB" = Return im' /\
              mode im' = "RGB"%string /\ size im' = size im /\ well_formed im'.
Proof.
  intros _. unfold Demo.convert. cbn [String.eqb Ascii.eqb Bool.eqb].
  destruct (size im) as [w h] eqn:Hs.
  eexists. split; [reflexivity|]. repeat split.
  unfold well_formed. cbn [pixels size mode fst snd].
  rewrite length_flat_map_const with (k := 3%nat).
  - rewrite length_seq. reflexivity.
  - intros i. rewrite length_map, length_seq. reflexivity.
Qed.

Lemma Demo_resize_ok (im : image) (w h : nat) :
  well_formed im -> (0 < w)%nat -> (0 < h)%nat ->
  exists im', Demo.resize im (w, h) = Return im' /\
              mode im' = mode im /\ size im' = (w, h) /\ well_formed im'.
Proof.
  intros _ Hw Hh. unfold Demo.resize.
  destruct (size im) as [w0 h0].
  destruct (Nat.eqb_spec w 0) as [->|_]; [lia|].
  destruct (Nat.eqb_spec h 0) as [->|_]; [lia|].
  cbn [orb]. eexists. split; [reflexivity|]. repeat split.
  unfold well_formed. cbn [pixels size mode fst snd].
  rewrite length_flat_map_const with (k := (w * nbands (mode im))%nat).
  - rewrite length_seq. lia.
  - intros y. rewrite length_flat_map_const with (k := nbands (mode im)).
    + rewrite length_seq. reflexivity.
    + intros x. rewrite length_map, length_seq. reflexivity.
Qed.

Lemma Demo_contract {F} (answer : outcome (list (list F))) :
  PillowContract (Demo.env answer).
Proof.
  split.
  - intros im Hwf. exact (Demo_convert_ok Hwf).
  - intros im w h Hwf Hw Hh. exact (Demo_resize_ok Hwf Hw Hh).
Qed.

Lemma Demo_cap_well_formed : well_formed Demo.cap.
Proof. reflexivity. Qed.

(** ** Failures: what is caught, what is raised, what is called *)

Lemma calls_app o (a b : list event) : calls o (a ++ b) = (calls o a + calls o b)%nat.
Proof. unfold calls. rewrite filter_app, length_app. reflexivity. Qed.


Section Failures.
Context {F : Type} {PF : PyFloat F} {E : Env F}.





Lemma utils_preprocess_image_calls (self : utils.MushroomClassifier F) input o :
  (calls o (events_of (utils.preprocess_image input self) ++ [EvModelPredict]) <= 1)%nat.
Proof.
  unfold utils.preprocess_image. destruct input; crunch; count_calls.
Qed.

Lemma app_preprocess_image_calls input o :
  (calls o (events_of (streamlit_app.preprocess_image input tt) ++ [EvModelPredict]) <= 1)%nat.
Proof.
  unfold streamlit_app.preprocess_image. destruct input; crunch; count_calls.
Qed.



(** ** The loop of [predict_batch] *)

Lemma predict_batch_loop_run (self : utils.MushroomClassifier F) images :
  forall results,
    utils.predict_batch_loop images results self
    = Run (Return (results ++ map (item_of self) images)) self
          (flat_map (fun image => events_of (utils.predict image false self)) images).
Proof.
  induction images as [|image images IH]; intros results.
  - cbn. rewrite app_nil_r. reflexivity.
  - cbn [utils.predict_batch_loop map flat_map]. unfold item_of at 1.
    pose proof (predict_preserves image false self) as Hs.
    unfold bind at 1. unfold try_except, bind at 1, ret.
    destruct (utils.predict image false self) as [[r|e] s1 ev1];
      cbn [state_of outcome_of events_of] in *; subst s1;
      rewrite IH, <- app_assoc, app_nil_r; reflexivity.
Qed.

Lemma predict_batch_run (self : utils.MushroomClassifier F) images m :
  utils.model self = Some m ->
  utils.predict_batch images self
  = Run (Return (map (item_of self) images)) self
        (flat_map (fun image => events_of (utils.predict image false self)) images).
Proof.
  intros Hm. unfold utils.predict_batch, bind, get. rewrite Hm.
  rewrite predict_batch_loop_run. reflexivity.
Qed.

Lemma predict_batch_not_loaded (self : utils.MushroomClassifier F) images :
  utils.model self = None ->
  utils.predict_batch images self
  = Run (Raise (Exn RuntimeError "Model not loaded. Cannot make predictions.")) self [].
Proof.
  intros Hm. unfold utils.predict_batch, bind, get, raise. rewrite Hm. reflexivity.
Qed.

End Failures.

(** ** The arithmetic of the verdict, in exact arithmetic *)






(** The name [predict] picks from the class names of [__init__]. *)
Lemma default_class_name (c : bool) :
  nth_error default_class_names (if c then 1 else 0)
  = Some (if c then "Poisonous" else "Edible")%string.
Proof. destruct c; reflexivity. Qed.

Lemma in_percent_utils_result {F} {PF : PyFloat F} (p : F) :
  in_percent (utils_result (if f_gt p f_half then "Poisonous" else "Edible") p)
  = app_result p.
Proof. reflexivity. Qed.

(** * The claims *)











(** C5. The verdict of a successful prediction is "Edible" or "Poisonous",
    and it is "Poisonous" exactly when the probability read from the model is
    greater than 0.5: for [predict] on an instance whose [class_names] are
    those of [__init__], and for [predict_mushroom]. *)
Theorem C5_verdict_is_one_of_two
    {F : Type} {PF : PyFloat F} {E : Env F}
    (self : utils.MushroomClassifier F) (model : keras_model F)
    (image : py_image) (return_probs : bool) :
  (forall r,
     utils.class_names self = default_class_names ->
     outcome_of (utils.predict image return_probs self) = Return r ->
     exists p,
       utils_reads self image p /\
       (utils.prediction r = "Edible"%string \/ utils.prediction r = "Poisonous"%string) /\
       (utils.prediction r = "Poisonous"%string <-> f_gt p f_half = true)) /\
  (forall r,
     outcome_of (streamlit_app.predict_mushroom model image tt) = Return (Some r) ->
     exists p,
       app_reads model image p /\
       (streamlit_app.prediction r = "Edible"%string \/
        streamlit_app.prediction r = "Poisonous"%string) /\
       (streamlit_app.prediction r = "Poisonous"%string <-> f_gt p f_half = true)).
Proof.
  split.
  - intros r Hcn Hr.
    apply predict_Return_inv in Hr as (p & name & Hp & Hn & ->).
    rewrite Hcn, default_class_name in Hn. injection Hn as <-.
    exists p. cbn [utils.prediction utils_result].
    destruct (f_gt p f_half); repeat split; auto; discriminate.
  - intros r Hr.
    apply predict_mushroom_Some_inv in Hr as (p & Hp & ->).
    exists p. cbn [streamlit_app.prediction app_result].
    destruct (f_gt p f_half); repeat split; auto; discriminate.
Qed.

(** C5, at the model answering 0.75 on the 2 x 2 test image. *)
Lemma C5_witness :
  let E := Demo.env (Return [[0.75%float]]) in
  let self := Demo.classifier (Return [[0.75%float]]) (2, 2)%nat in
  let model := Demo.stub_model (Return [[0.75%float]]) in
  (utils.class_names self = default_class_names /\
   outcome_of (utils.predict (PyImage Demo.cap) false self)
   = Return (utils_result "Poisonous" 0.75%float) /\
   exists p,
     utils_reads self (PyImage Demo.cap) p /\
     (utils.prediction (utils_result "Poisonous" 0.75%float) = "Edible"%string \/
      utils.prediction (utils_result "Poisonous" 0.75%float) = "Poisonous"%string) /\
     (utils.prediction (utils_result "Poisonous" 0.75%float) = "Poisonous"%string
      <-> f_gt p f_half = true)) /\
  (outcome_of (streamlit_app.predict_mushroom model (PyImage Demo.cap) tt)
   = Return (Some (app_result 0.75%float)) /\
   exists p,
     app_reads model (PyImage Demo.cap) p /\
     (streamlit_app.prediction (app_result 0.75%float) = "Edible"%string \/
      streamlit_app.prediction (app_result 0.75%float) = "Poisonous"%string) /\
     (streamlit_app.prediction (app_result 0.75%float) = "Poisonous"%string
      <-> f_gt p f_half = true)).
Proof.
  intros E self model.
  assert (outcome_of (utils.predict (PyImage Demo.cap) false self)
          = Return (utils_result "Poisonous" 0.75%float)) as Hr
    by (vm_compute; reflexivity).
  assert (outcome_of (streamlit_app.predict_mushroom model (PyImage Demo.cap) tt)
          = Return (Some (app_result 0.75%float))) as Hr'.
  { apply predict_mushroom_Some_intro.
    destruct (app_preprocess_image_ok (E := E) (input := PyImage Demo.cap)
                (Demo_contract _) eq_refl Demo_cap_well_formed)
      as (t & Ht & _); [discriminate|].
    exists t. split; [exact Ht|]. exists [], []. reflexivity. }
  split.
  - split; [reflexivity|]. split; [exact Hr|].
    exact (proj1 (C5_verdict_is_one_of_two self model (PyImage Demo.cap) false)
             _ eq_refl Hr).
  - split; [exact Hr'|].
    exact (proj2 (C5_verdict_is_one_of_two self model (PyImage Demo.cap) false)
             _ Hr').
Defined.

(** C6. [predict] and [predict_batch] leave the instance as it was:
    [model_path], [img_size], [class_names] and [model] are the same after
    the call as before it, whatever the input, whether the call returns or
    raises. *)
Theorem C6_predict_leaves_fields_unchanged
    {F : Type} {PF : PyFloat F} {E : Env F}
    (self : utils.MushroomClassifier F)
    (image : py_image) (return_probs : bool) (images : list py_image) :
  state_of (utils.predict image return_probs self) = self /\
  state_of (utils.predict_batch images self) = self.
Proof.
  split; [apply predict_preserves|apply predict_batch_preserves].
Qed.

(** C7. With a model loaded, [predict_batch] returns, never raises; its
    list holds, image by image and in the order of the input, the dictionary
    [predict] returns for the image, or the entry [{'error': str(e)}] for the
    exception [predict] raises; so it is as long as the input. The external
    calls it makes are those of [predict] on the first image, then on the
    second, and so on. *)
Theorem C7_predict_batch_maps_predict
    {F : Type} {PF : PyFloat F} {E : Env F}
    (self : utils.MushroomClassifier F) (images : list py_image) (m : keras_model F) :
  utils.model self = Some m ->
  exists results,
    outcome_of (utils.predict_batch images self) = Return results /\
    length results = length images /\
    (forall i image,
       nth_error images i = Some image ->
       (forall r, outcome_of (utils.predict image false self) = Return r ->
                  nth_error results i = Some (utils.ItemResult r)) /\
       (forall e, outcome_of (utils.predict image false self) = Raise e ->
                  nth_error results i = Some (utils.ItemError (exn_msg e)))) /\
    events_of (utils.predict_batch images self)
    = flat_map (fun image => events_of (utils.predict image false self)) images.
Proof.
  intros Hm. exists (map (item_of self) images).
  rewrite (predict_batch_run self images Hm). cbn [outcome_of events_of].
  split; [reflexivity|]. split; [apply length_map|]. split; [|reflexivity].
  intros i image Hi. rewrite nth_error_map, Hi. cbn [option_map]. unfold item_of.
  split; intros x Hx; rewrite Hx; reflexivity.
Qed.

(** C7, on three inputs: a readable file, a missing file, an image. *)
Lemma C7_witness :
  let E := Demo.env (Return [[0.75%float]]) in
  let self := Demo.classifier (Return [[0.75%float]]) (2, 2)%nat in
  let images := [PyStr "cap.png"; PyStr "spore.png"; PyImage Demo.cap] in
  utils.model self = Some (Demo.stub_model (Return [[0.75%float]])) /\
  outcome_of (utils.predict_batch images self)
  = Return [utils.ItemResult (utils_result "Poisonous" 0.75%float);
            utils.ItemError "Prediction failed: cannot identify image file";
            utils.ItemResult (utils_result "Poisonous" 0.75%float)] /\
  exists results,
    outcome_of (utils.predict_batch images self) = Return results /\
    length results = length images /\
    (forall i image,
       nth_error images i = Some image ->
       (forall r, outcome_of (utils.predict image false self) = Return r ->
                  nth_error results i = Some (utils.ItemResult r)) /\
       (forall e, outcome_of (utils.predict image false self) = Raise e ->
                  nth_error results i = Some (utils.ItemError (exn_msg e)))) /\
    events_of (utils.predict_batch images self)
    = flat_map (fun image => events_of (utils.predict image false self)) images.
Proof.
  intros E self images. split; [reflexivity|]. split; [vm_compute; reflexivity|].
  exact (C7_predict_batch_maps_predict self images eq_refl).
Defined.

(** C8. In binary64, when the probability read from the model is exactly
    0.5, [predict] (on an instance with the class names of [__init__]) and
    [predict_mushroom] return the verdict "Edible" with [is_poisonous] false;
    the confidence is 0.5 for [predict] and 50 for [predict_mushroom]. *)
Theorem C8_half_is_edible
    {E : Env float} (self : utils.MushroomClassifier float) (model : keras_model float)
    (image : py_image) (return_probs : bool) :
  (utils.class_names self = default_class_names ->
   utils_reads self image 0.5%float ->
   exists r,
     outcome_of (utils.predict image return_probs self) = Return r /\
     utils.prediction r = "Edible"%string /\
     utils.is_poisonous r = false /\
     utils.confidence r = 0.5%float) /\
  (app_reads model image 0.5%float ->
   exists r,
     outcome_of (streamlit_app.predict_mushroom model image tt) = Return (Some r) /\
     streamlit_app.prediction r = "Edible"%string /\
     streamlit_app.is_poisonous r = false /\
     streamlit_app.confidence r = 50%float).
Proof.
  split.
  - intros Hcn Hp. exists (utils_result "Edible" 0.5%float).
    split; [|repeat split].
    apply predict_Return_intro; [exact Hp|]. rewrite Hcn. reflexivity.
  - intros Hp. exists (app_result 0.5%float).
    split; [|repeat split].
    apply predict_mushroom_Some_intro. exact Hp.
Qed.

(** C8, at the model answering 0.5 on the 2 x 2 test image. *)
Lemma C8_witness :
  let E := Demo.env (Return [[0.5%float]]) in
  let self := Demo.classifier (Return [[0.5%float]]) (2, 2)%nat in
  let model := Demo.stub_model (Return [[0.5%float]]) in
  (utils.class_names self = default_class_names /\
   utils_reads self (PyImage Demo.cap) 0.5%float /\
   exists r,
     outcome_of (utils.predict (PyImage Demo.cap) false self) = Return r /\
     utils.prediction r = "Edible"%string /\
     utils.is_poisonous r = false /\
     utils.confidence r = 0.5%float) /\
  (app_reads model (PyImage Demo.cap) 0.5%float /\
   exists r,
     outcome_of (streamlit_app.predict_mushroom model (PyImage Demo.cap) tt)
     = Return (Some r) /\
     streamlit_app.prediction r = "Edible"%string /\
     streamlit_app.is_poisonous r = false /\
     streamlit_app.confidence r = 50%float).
Proof.
  intros E self model.
  assert (utils_reads self (PyImage Demo.cap) 0.5%float) as Hu.
  { eexists. eexists. split; [reflexivity|]. split; [vm_compute; reflexivity|].
    exists [], []. reflexivity. }
  assert (app_reads model (PyImage Demo.cap) 0.5%float) as Ha.
  { destruct (app_preprocess_image_ok (E := E) (input := PyImage Demo.cap)
                (Demo_contract _) eq_refl Demo_cap_well_formed)
      as (t & Ht & _); [discriminate|].
    exists t. split; [exact Ht|]. exists [], []. reflexivity. }
  split.
  - split; [reflexivity|]. split; [exact Hu|].
    exact (proj1 (C8_half_is_edible self model (PyImage Demo.cap) false) eq_refl Hu).
  - split; [exact Ha|].
    exact (proj2 (C8_half_is_edible self model (PyImage Demo.cap) false) Ha).
Defined.

(** C9 (as corrected). For an instance of the class with [img_size] (224,
    224), the class names of [__init__] and a model loaded, and an input that
    is not a path: [preprocess_image] of the app returns the array the method
    of the class returns, and [None] where the method raises;
    [predict_mushroom] with the same model returns the dictionary of
    [predict] with the same verdict and flag and with confidence and
    probabilities multiplied by 100, and [None] where [predict] raises.
    [preprocess_image_simple] on a path is the method of the class on that
    path, and the preprocessor of the app on the image opened from it; the
    preprocessor of the app does not take paths. *)
Theorem C9_app_agrees_with_utils
    {F : Type} {PF : PyFloat F} {E : Env F}
    (self : utils.MushroomClassifier F) (m : keras_model F)
    (input : py_image) (path : string) (im : image) (return_probs : bool) :
  utils.img_size self = (224, 224)%nat ->
  utils.class_names self = default_class_names ->
  utils.model self = Some m ->
  (forall path, input <> PyStr path) ->
  outcome_of (streamlit_app.preprocess_image input tt)
  = match outcome_of (utils.preprocess_image input self) with
    | Return t => Return (Some t)
    | Raise _ => Return None
    end /\
  outcome_of (streamlit_app.predict_mushroom m input tt)
  = match outcome_of (utils.predict input return_probs self) with
    | Return r => Return (Some (in_percent r))
    | Raise _ => Return None
    end /\
  outcome_of (utils.preprocess_image_simple path (224, 224)%nat tt)
  = outcome_of (utils.preprocess_image (PyStr path) self) /\
  (Image_open path = Return im ->
   outcome_of (streamlit_app.preprocess_image (PyImage im) tt)
   = match outcome_of (utils.preprocess_image_simple path (224, 224)%nat tt) with
     | Return t => Return (Some t)
     | Raise _ => Return None
     end).
Proof.
  intros Hsz Hcn Hm Hnp.
  pose proof (app_preprocess_image_as_utils self Hsz Hnp) as Hpre.
  split; [exact Hpre|]. split; [|split].
  - rewrite predict_mushroom_run, (predict_loaded input return_probs self Hm).
    destruct (streamlit_app.preprocess_image input tt) as [oa sa eva].
    destruct (utils.preprocess_image input self) as [[t|e] su evu]; simpl_run; subst oa.
    + destruct (model_predict m t) as [[|[|p tl] rows]|e]; simpl_run; try reflexivity.
      rewrite Hcn, default_class_name. reflexivity.
    + reflexivity.
  - rewrite <- Hsz. apply preprocess_image_simple_as_utils.
  - apply preprocess_image_simple_as_app.
Qed.

(** C9, at the 2 x 2 test image and the file "cap.png" that holds it. *)
Lemma C9_witness :
  let E := Demo.env (Return [[0.75%float]]) in
  let self := Demo.classifier (Return [[0.75%float]]) (224, 224)%nat in
  let m := Demo.stub_model (Return [[0.75%float]]) in
  utils.img_size self = (224, 224)%nat /\
  utils.class_names self = default_class_names /\
  utils.model self = Some m /\
  Image_open "cap.png" = Return Demo.cap /\
  outcome_of (streamlit_app.preprocess_image (PyImage Demo.cap) tt)
  = match outcome_of (utils.preprocess_image (PyImage Demo.cap) self) with
    | Return t => Return (Some t)
    | Raise _ => Return None
    end /\
  outcome_of (streamlit_app.predict_mushroom m (PyImage Demo.cap) tt)
  = match outcome_of (utils.predict (PyImage Demo.cap) false self) with
    | Return r => Return (Some (in_percent r))
    | Raise _ => Return None
    end /\
  outcome_of (utils.preprocess_image_simple "cap.png" (224, 224)%nat tt)
  = outcome_of (utils.preprocess_image (PyStr "cap.png") self) /\
  outcome_of (streamlit_app.preprocess_image (PyImage Demo.cap) tt)
  = match outcome_of (utils.preprocess_image_simple "cap.png" (224, 224)%nat tt) with
    | Return t => Return (Some t)
    | Raise _ => Return None
    end.
Proof.
  intros E self m.
  assert (forall path, PyImage Demo.cap <> PyStr path) as Hnp by discriminate.
  destruct (@C9_app_agrees_with_utils float _ E self m (PyImage Demo.cap) "cap.png"
              Demo.cap false eq_refl eq_refl eq_refl Hnp)
    as (H1 & H2 & H3 & H4).
  do 4 (split; [reflexivity|]).
  split; [exact H1|]. split; [exact H2|]. split; [exact H3|]. exact (H4 eq_refl).
Defined.

(** C9, counterexample to the claim as stated: on the path of a readable
    image, [preprocess_image_simple] returns an array and the preprocessor of
    the app returns [None]. *)
Lemma C9_simple_and_app_differ_on_a_path :
  let E := Demo.env (Return [[0.75%float]]) in
  Image_open "cap.png" = Return Demo.cap /\
  (exists t,
     outcome_of (utils.preprocess_image_simple "cap.png" (224, 224)%nat tt) = Return t /\
     shape t = [1; 224; 224; 3]%nat) /\
  outcome_of (streamlit_app.preprocess_image (PyStr "cap.png") tt) = Return None.
Proof.
  intros E. split; [reflexivity|]. split; [|reflexivity].
  destruct (preprocess_image_simple_ok (E := E) "cap.png" (w := 224) (h := 224)
              (Demo_contract _) eq_refl Demo_cap_well_formed)
    as (t & Ht & Hs & _); [lia|lia|].
  exists t. auto.
Qed.



(** * Further properties

    ** The life of a classifier: [__init__], [load_model], the methods *)

Section Lifecycle.
Context {F : Type} {PF : PyFloat F} {E : Env F}.

(** The model Keras gives for a path, if the file is there and loads. *)
Lemma load_model_run (self : utils.MushroomClassifier F) :
  outcome_of (utils.load_model self)
  = Return (if os_path_exists (utils.model_path self)
            then match keras_load_model (utils.model_path self) with
                 | Return _ => true
                 | Raise _ => false
                 end
            else false) /\
  state_of (utils.load_model self)
  = {| utils.model_path := utils.model_path self;
       utils.img_size := utils.img_size self;
       utils.class_names := utils.class_names self;
       utils.model := if os_path_exists (utils.model_path self)
                      then match keras_load_model (utils.model_path self) with
                           | Return m => Some m
                           | Raise _ => None
                           end
                      else None |}.
Proof.
  unfold utils.load_model. unfold_monad.
  destruct (os_path_exists (utils.model_path self)); simpl_run;
    [destruct (keras_load_model (utils.model_path self)); simpl_run|];
    split; reflexivity.
Qed.

Lemma init_run (model_path : string) (img_size : nat * nat)
    (fresh : utils.MushroomClassifier F) :
  outcome_of (utils.__init__ model_path img_size fresh) = Return tt /\
  state_of (utils.__init__ model_path img_size fresh)
  = {| utils.model_path := model_path;
       utils.img_size := img_size;
       utils.class_names := default_class_names;
       utils.model := if os_path_exists model_path
                      then match keras_load_model model_path with
                           | Return m => Some m
                           | Raise _ => None
                           end
                      else None |}.
Proof.
  unfold utils.__init__.
  rewrite outcome_bind, state_bind. cbn [put outcome_of state_of].
  rewrite outcome_bind, state_bind.
  match goal with |- context [utils.load_model ?s] =>
    destruct (load_model_run s) as [Ho Hs]; rewrite Ho, Hs end.
  split; reflexivity.
Qed.

Lemma after_call_keeps (self : utils.MushroomClassifier F) (c : method_call F) :
  utils.model_path (after_call self c) = utils.model_path self /\
  utils.img_size (after_call self c) = utils.img_size self /\
  utils.class_names (after_call self c) = utils.class_names self.
Proof.
  destruct c as [|image|image rp|images]; cbn [after_call].
  - destruct (load_model_run self) as [_ ->]. auto.
  - rewrite preprocess_image_preserves. auto.
  - rewrite predict_preserves. auto.
  - rewrite predict_batch_preserves. auto.
Qed.

Lemma after_calls_keeps (cs : list (method_call F)) :
  forall self : utils.MushroomClassifier F,
    utils.model_path (after_calls self cs) = utils.model_path self /\
    utils.img_size (after_calls self cs) = utils.img_size self /\
    utils.class_names (after_calls self cs) = utils.class_names self.
Proof.
  unfold after_calls.
  induction cs as [|c cs IH]; intros self; cbn [fold_left].
  - auto.
  - destruct (IH (after_call self c)) as (H1 & H2 & H3).
    destruct (after_call_keeps self c) as (K1 & K2 & K3).
    rewrite H1, H2, H3. auto.
Qed.

End Lifecycle.

(** X1. [MushroomClassifier.load_model] never raises and touches only
    [self.model]. It returns [True] when the file exists and Keras loads it,
    and then [self.model] is the loaded model; it returns [False] when the
    file is missing or Keras raises, and then [self.model] is [None]. *)
Theorem X1_load_model_reports_what_it_stored
    {F : Type} {PF : PyFloat F} {E : Env F} (self : utils.MushroomClassifier F) :
  let after := state_of (utils.load_model self) in
  utils.model_path after = utils.model_path self /\
  utils.img_size after = utils.img_size self /\
  utils.class_names after = utils.class_names self /\
  ((outcome_of (utils.load_model self) = Return true /\
    os_path_exists (utils.model_path self) = true /\
    exists m, keras_load_model (utils.model_path self) = Return m /\
              utils.model after = Some m) \/
   (outcome_of (utils.load_model self) = Return false /\
    utils.model after = None /\
    (os_path_exists (utils.model_path self) = false \/
     exists e, keras_load_model (utils.model_path self) = Raise e))).
Proof.
  cbn zeta.
  destruct (load_model_run self) as [Ho Hs]. rewrite Ho, Hs.
  cbn [utils.model_path utils.img_size utils.class_names utils.model].
  do 3 (split; [reflexivity|]).
  destruct (os_path_exists (utils.model_path self)).
  - destruct (keras_load_model (utils.model_path self)) as [m|e].
    + left. eauto 10.
    + right. eauto 10.
  - right. auto.
Qed.

(** X2. [__init__] never raises, whatever the model file is; the object it
    builds has the path and size it was given and the two class names, and
    holds the model exactly when the file exists and Keras loads it. *)
Theorem X2_init_builds_the_object
    {F : Type} {PF : PyFloat F} {E : Env F}
    (model_path : string) (img_size : nat * nat) (fresh : utils.MushroomClassifier F) :
  let run := utils.__init__ model_path img_size fresh in
  outcome_of run = Return tt /\
  utils.model_path (state_of run) = model_path /\
  utils.img_size (state_of run) = img_size /\
  utils.class_names (state_of run) = ["Edible"; "Poisonous"]%string /\
  (forall m,
     utils.model (state_of run) = Some m <->
     os_path_exists model_path = true /\ keras_load_model model_path = Return m).
Proof.
  cbn zeta.
  destruct (init_run model_path img_size fresh) as [Ho Hs]. rewrite Ho, Hs.
  cbn [utils.model_path utils.img_size utils.class_names utils.model].
  do 4 (split; [reflexivity|]).
  intros m. destruct (os_path_exists model_path).
  - destruct (keras_load_model model_path) as [m'|e]; split.
    + intros H. injection H as ->. auto.
    + intros [_ H]. injection H as ->. reflexivity.
    + discriminate.
    + intros [_ H]. discriminate.
  - split; [discriminate|]. intros [H _]. discriminate.
Qed.

(** X3. Once [__init__] has run, no sequence of calls of [load_model],
    [preprocess_image], [predict] and [predict_batch] changes [model_path],
    [img_size] or [class_names]: the class names stay "Edible" and
    "Poisonous". *)
Theorem X3_methods_keep_path_size_and_class_names
    {F : Type} {PF : PyFloat F} {E : Env F}
    (model_path : string) (img_size : nat * nat) (cs : list (method_call F)) :
  let self := after_calls (new_classifier model_path img_size) cs in
  utils.model_path self = model_path /\
  utils.img_size self = img_size /\
  utils.class_names self = ["Edible"; "Poisonous"]%string.
Proof.
  cbn zeta.
  destruct (after_calls_keeps cs (new_classifier model_path img_size))
    as (H1 & H2 & H3).
  rewrite H1, H2, H3. unfold new_classifier.
  destruct (init_run model_path img_size
              {| utils.model_path := EmptyString; utils.img_size := (0, 0)%nat;
                 utils.class_names := []; utils.model := None |}) as [_ ->].
  auto.
Qed.

(** X4. Without a model, [predict] and [predict_batch] raise
    [RuntimeError] at once: no image is opened, nothing is called, the object
    is unchanged. *)
Theorem X4_no_model_no_calls
    {F : Type} {PF : PyFloat F} {E : Env F}
    (self : utils.MushroomClassifier F)
    (image : py_image) (return_probs : bool) (images : list py_image) :
  utils.model self = None ->
  utils.predict image return_probs self
  = Run (Raise (Exn RuntimeError "Model not loaded. Cannot make predictions.")) self [] /\
  utils.predict_batch images self
  = Run (Raise (Exn RuntimeError "Model not loaded. Cannot make predictions.")) self [].
Proof.
  intros Hm. split.
  - exact (predict_not_loaded image return_probs self Hm).
  - exact (predict_batch_not_loaded self images Hm).
Qed.

(** X4, at a classifier built for a file that is not there. *)
Lemma X4_witness :
  let E := Demo.env (Return [[0.75%float]]) in
  let self := new_classifier "nothing.h5" (224, 224)%nat in
  utils.model self = None /\
  utils.predict (PyStr "cap.png") false self
  = Run (Raise (Exn RuntimeError "Model not loaded. Cannot make predictions.")) self [] /\
  utils.predict_batch [PyStr "cap.png"; PyImage Demo.cap] self
  = Run (Raise (Exn RuntimeError "Model not loaded. Cannot make predictions.")) self [].
Proof.
  intros E self. split; [reflexivity|].
  exact (X4_no_model_no_calls self (PyStr "cap.png") false
           [PyStr "cap.png"; PyImage Demo.cap] eq_refl).
Defined.



(** X6. [predict_batch] on no image returns the empty list and calls
    nothing; on a list that is two lists one after the other it returns the
    results of the first followed by the results of the second, and makes the
    calls of the first followed by the calls of the second. *)
Theorem X6_predict_batch_of_concatenation
    {F : Type} {PF : PyFloat F} {E : Env F}
    (self : utils.MushroomClassifier F) (m : keras_model F) (xs ys : list py_image) :
  utils.model self = Some m ->
  utils.predict_batch [] self = Run (Return []) self [] /\
  exists rx ry,
    outcome_of (utils.predict_batch xs self) = Return rx /\
    outcome_of (utils.predict_batch ys self) = Return ry /\
    outcome_of (utils.predict_batch (xs ++ ys) self) = Return (rx ++ ry) /\
    events_of (utils.predict_batch (xs ++ ys) self)
    = events_of (utils.predict_batch xs self) ++ events_of (utils.predict_batch ys self).
Proof.
  intros Hm. rewrite !(predict_batch_run self _ Hm). split; [reflexivity|].
  exists (map (item_of self) xs), (map (item_of self) ys).
  cbn [outcome_of events_of]. rewrite map_app, flat_map_app. auto.
Qed.

(** X6, on a readable file followed by a missing one. *)
Lemma X6_witness :
  let E := Demo.env (Return [[0.75%float]]) in
  let self := Demo.classifier (Return [[0.75%float]]) (2, 2)%nat in
  let xs := [PyStr "cap.png"] in
  let ys := [PyStr "spore.png"] in
  utils.model self = Some (Demo.stub_model (Return [[0.75%float]])) /\
  utils.predict_batch [] self = Run (Return []) self [] /\
  exists rx ry,
    outcome_of (utils.predict_batch xs self) = Return rx /\
    outcome_of (utils.predict_batch ys self) = Return ry /\
    outcome_of (utils.predict_batch (xs ++ ys) self) = Return (rx ++ ry) /\
    events_of (utils.predict_batch (xs ++ ys) self)
    = events_of (utils.predict_batch xs self) ++ events_of (utils.predict_batch ys self).
Proof.
  intros E self xs ys. split; [reflexivity|].
  exact (X6_predict_batch_of_concatenation self xs ys eq_refl).
Defined.


(** ** Preprocessing: what is called, and in which order *)



Section Calls.
Context {F : Type} {PF : PyFloat F} {E : Env F}.

Lemma utils_preprocess_image_no_inference (self : utils.MushroomClassifier F) input :
  calls OpModelPredict (events_of (utils.preprocess_image input self)) = 0%nat.
Proof.
  pose proof (utils_preprocess_image_calls self input OpModelPredict) as H.
  rewrite calls_app in H.
  change (calls OpModelPredict [EvModelPredict]) with 1%nat in H. lia.
Qed.

Lemma app_preprocess_image_no_inference input :
  calls OpModelPredict (events_of (streamlit_app.preprocess_image input tt)) = 0%nat.
Proof.
  pose proof (app_preprocess_image_calls input OpModelPredict) as H.
  rewrite calls_app in H.
  change (calls OpModelPredict [EvModelPredict]) with 1%nat in H. lia.
Qed.

Lemma app_preprocess_image_no_open input :
  calls OpImageOpen (events_of (streamlit_app.preprocess_image input tt)) = 0%nat.
Proof.
  unfold streamlit_app.preprocess_image. destruct input; crunch; reflexivity.
Qed.

End Calls.

(** X8. Every run of [MushroomClassifier.preprocess_image] calls Pillow in
    one order: first [Image.open] for a path or [Image.fromarray] for an
    array (nothing for an image), then at most one [convert], always to RGB,
    then at most one [resize], always to [self.img_size]; a run that returns
    has made the [resize] call. *)
Theorem X8_preprocess_image_calls_in_order
    {F : Type} {PF : PyFloat F} {E : Env F}
    (self : utils.MushroomClassifier F) (input : py_image) :
  exists converted resized,
    events_of (utils.preprocess_image input self)
    = match input with
      | PyStr path => [EvImageOpen path]
      | PyArray _ => [EvFromArray]
      | PyImage _ | PyOther => []
      end ++ converted ++ resized /\
    (converted = [] \/ converted = [EvConvert "RGB"]) /\
    (resized = [] \/ resized = [EvResize (utils.img_size self)]) /\
    ((exists t, outcome_of (utils.preprocess_image input self) = Return t) ->
     resized = [EvResize (utils.img_size self)]).
Proof.
  unfold utils.preprocess_image. unfold_monad.
  destruct input as [path|a|im|]; simpl_run.
  - destruct (Image_open path) as [im|e]; simpl_run.
    + destruct (negb (String.eqb (mode im) "RGB")); simpl_run.
      * destruct (Image_convert im "RGB") as [im1|e]; simpl_run.
        -- exists [EvConvert "RGB"], [EvResize (utils.img_size self)].
           destruct (Image_resize im1 (utils.img_size self)); simpl_run; auto 10.
        -- exists [EvConvert "RGB"], []. repeat split; auto.
           intros (t & Ht). discriminate.
      * exists [], [EvResize (utils.img_size self)].
        destruct (Image_resize im (utils.img_size self)); simpl_run; auto 10.
    + exists [], []. repeat split; auto. intros (t & Ht). discriminate.
  - destruct (Image_fromarray (astype_uint8 a)) as [im|e]; simpl_run.
    + destruct (negb (String.eqb (mode im) "RGB")); simpl_run.
      * destruct (Image_convert im "RGB") as [im1|e]; simpl_run.
        -- exists [EvConvert "RGB"], [EvResize (utils.img_size self)].
           destruct (Image_resize im1 (utils.img_size self)); simpl_run; auto 10.
        -- exists [EvConvert "RGB"], []. repeat split; auto.
           intros (t & Ht). discriminate.
      * exists [], [EvResize (utils.img_size self)].
        destruct (Image_resize im (utils.img_size self)); simpl_run; auto 10.
    + exists [], []. repeat split; auto. intros (t & Ht). discriminate.
  - destruct (negb (String.eqb (mode im) "RGB")); simpl_run.
    + destruct (Image_convert im "RGB") as [im1|e]; simpl_run.
      * exists [EvConvert "RGB"], [EvResize (utils.img_size self)].
        destruct (Image_resize im1 (utils.img_size self)); simpl_run; auto 10.
      * exists [EvConvert "RGB"], []. repeat split; auto.
        intros (t & Ht). discriminate.
    + exists [], [EvResize (utils.img_size self)].
      destruct (Image_resize im (utils.img_size self)); simpl_run; auto 10.
  - exists [], []. repeat split; auto. intros (t & Ht). discriminate.
Qed.

(** X8, at the 2 x 2 test image, which is converted and resized. *)
Lemma X8_witness :
  let E := Demo.env (Return [[0.75%float]]) in
  let self := Demo.classifier (Return [[0.75%float]]) (2, 2)%nat in
  (exists t, outcome_of (utils.preprocess_image (PyImage Demo.cap) self) = Return t) /\
  exists converted resized,
    events_of (utils.preprocess_image (PyImage Demo.cap) self)
    = [] ++ converted ++ resized /\
    resized = [EvResize (2, 2)%nat].
Proof.
  intros E self.
  assert (exists t, outcome_of (utils.preprocess_image (PyImage Demo.cap) self) = Return t)
    as Hret by (eexists; vm_compute; reflexivity).
  split; [exact Hret|].
  destruct (X8_preprocess_image_calls_in_order self (PyImage Demo.cap))
    as (converted & resized & Hev & _ & _ & Hres).
  exists converted, resized. split; [exact Hev|exact (Hres Hret)].
Defined.

(** X9. An image is converted exactly when its mode is not RGB: on a PIL
    image, the method of the class and the preprocessor of the app call
    [convert] once for any other mode and never for RGB. *)
Theorem X9_convert_is_called_unless_RGB
    {F : Type} {PF : PyFloat F} {E : Env F}
    (self : utils.MushroomClassifier F) (im : image) :
  calls OpConvert (events_of (utils.preprocess_image (PyImage im) self))
  = (if String.eqb (mode im) "RGB" then 0 else 1)%nat /\
  calls OpConvert (events_of (streamlit_app.preprocess_image (PyImage im) tt))
  = (if String.eqb (mode im) "RGB" then 0 else 1)%nat.
Proof.
  unfold utils.preprocess_image, streamlit_app.preprocess_image. unfold_monad.
  destruct (String.eqb (mode im) "RGB"); cbn [negb]; split; steps.
Qed.


(** X11. When preprocessing raises, [predict] does not consult the model:
    it raises [RuntimeError] with "Prediction failed: " before the message of
    the exception of preprocessing, and [predict_batch] stores that text as
    the error of the image. *)
Theorem X11_predict_wraps_preprocessing_errors
    {F : Type} {PF : PyFloat F} {E : Env F}
    (self : utils.MushroomClassifier F) (m : keras_model F)
    (image : py_image) (return_probs : bool) (e : exn) :
  utils.model self = Some m ->
  outcome_of (utils.preprocess_image image self) = Raise e ->
  outcome_of (utils.predict image return_probs self)
  = Raise (Exn RuntimeError ("Prediction failed: " ++ exn_msg e)) /\
  calls OpModelPredict (events_of (utils.predict image return_probs self)) = 0%nat /\
  outcome_of (utils.predict_batch [image] self)
  = Return [utils.ItemError ("Prediction failed: " ++ exn_msg e)].
Proof.
  intros Hm He.
  pose proof (utils_preprocess_image_no_inference self image) as Hc.
  rewrite (predict_batch_run self [image] Hm). cbn [outcome_of map]. unfold item_of.
  rewrite !(predict_loaded image _ self Hm).
  destruct (utils.preprocess_image image self) as [o s1 ev1]; simpl_run. subst o.
  simpl_run. auto.
Qed.

(** X11, at a file Pillow cannot read. *)
Lemma X11_witness :
  let E := Demo.env (Return [[0.75%float]]) in
  let self := Demo.classifier (Return [[0.75%float]]) (224, 224)%nat in
  let e := Exn OSError "cannot identify image file" in
  utils.model self = Some (Demo.stub_model (Return [[0.75%float]])) /\
  outcome_of (utils.preprocess_image (PyStr "spore.png") self) = Raise e /\
  outcome_of (utils.predict (PyStr "spore.png") false self)
  = Raise (Exn RuntimeError ("Prediction failed: " ++ exn_msg e)) /\
  calls OpModelPredict (events_of (utils.predict (PyStr "spore.png") false self)) = 0%nat /\
  outcome_of (utils.predict_batch [PyStr "spore.png"] self)
  = Return [utils.ItemError ("Prediction failed: " ++ exn_msg e)].
Proof.
  intros E self e. split; [reflexivity|]. split; [reflexivity|].
  exact (X11_predict_wraps_preprocessing_errors self (PyStr "spore.png") false
           eq_refl eq_refl).
Defined.

(** X12. When the preprocessor of the app returns [None], [predict_mushroom]
    returns [None] without consulting the model and without a message of its
    own: its calls and messages are those of the preprocessor, and the last
    of them is the [st.error] of the preprocessor. *)
Theorem X12_predict_mushroom_stops_at_None
    {F : Type} {PF : PyFloat F} {E : Env F}
    (model : keras_model F) (image : py_image) :
  outcome_of (streamlit_app.preprocess_image image tt) = Return None ->
  outcome_of (streamlit_app.predict_mushroom model image tt) = Return None /\
  events_of (streamlit_app.predict_mushroom model image tt)
  = events_of (streamlit_app.preprocess_image image tt) /\
  calls OpModelPredict (events_of (streamlit_app.predict_mushroom model image tt)) = 0%nat /\
  exists evs e,
    events_of (streamlit_app.predict_mushroom model image tt)
    = evs ++ [EvStError ("Error preprocessing image: " ++ exn_msg e)].
Proof.
  intros Hn.
  assert (outcome_of (streamlit_app.predict_mushroom model image tt) = Return None /\
          events_of (streamlit_app.predict_mushroom model image tt)
          = events_of (streamlit_app.preprocess_image image tt)) as [Ho Heq].
  { rewrite predict_mushroom_run.
    destruct (streamlit_app.preprocess_image image tt) as [o [] ev1]; simpl_run.
    subst o. split; reflexivity. }
  rewrite Heq. split; [exact Ho|]. split; [reflexivity|].
  split; [apply app_preprocess_image_no_inference|].
  revert Hn. clear Heq Ho.
  unfold streamlit_app.preprocess_image. unfold_monad.
  destruct image as [path|a|im|]; simpl_run.
  - intros _. exists [], (Exn AttributeError "'str' object has no attribute 'mode'").
    reflexivity.
  - destruct (Image_fromarray (astype_uint8 a)) as [im|e]; simpl_run.
    + destruct (negb (String.eqb (mode im) "RGB")); simpl_run.
      * destruct (Image_convert im "RGB") as [im1|e]; simpl_run.
        -- destruct (Image_resize im1 streamlit_app.IMG_SIZE) as [im2|e]; simpl_run;
             [discriminate|].
           intros _. exists [EvFromArray; EvConvert "RGB"; EvResize streamlit_app.IMG_SIZE], e.
           reflexivity.
        -- intros _. exists [EvFromArray; EvConvert "RGB"], e. reflexivity.
      * destruct (Image_resize im streamlit_app.IMG_SIZE) as [im2|e]; simpl_run;
          [discriminate|].
        intros _. exists [EvFromArray; EvResize streamlit_app.IMG_SIZE], e. reflexivity.
    + intros _. exists [EvFromArray], e. reflexivity.
  - destruct (negb (String.eqb (mode im) "RGB")); simpl_run.
    + destruct (Image_convert im "RGB") as [im1|e]; simpl_run.
      * destruct (Image_resize im1 streamlit_app.IMG_SIZE) as [im2|e]; simpl_run;
          [discriminate|].
        intros _. exists [EvConvert "RGB"; EvResize streamlit_app.IMG_SIZE], e.
        reflexivity.
      * intros _. exists [EvConvert "RGB"], e. reflexivity.
    + destruct (Image_resize im streamlit_app.IMG_SIZE) as [im2|e]; simpl_run;
        [discriminate|].
      intros _. exists [EvResize streamlit_app.IMG_SIZE], e. reflexivity.
  - intros _. exists [], (Exn AttributeError "object has no attribute 'mode'").
    reflexivity.
Qed.

(** X12, at a path, which the preprocessor of the app refuses. *)
Lemma X12_witness :
  let E := Demo.env (Return [[0.75%float]]) in
  let model := Demo.stub_model (Return [[0.75%float]]) in
  outcome_of (streamlit_app.preprocess_image (PyStr "cap.png") tt) = Return None /\
  outcome_of (streamlit_app.predict_mushroom model (PyStr "cap.png") tt) = Return None /\
  events_of (streamlit_app.predict_mushroom model (PyStr "cap.png") tt)
  = events_of (streamlit_app.preprocess_image (PyStr "cap.png") tt) /\
  calls OpModelPredict
    (events_of (streamlit_app.predict_mushroom model (PyStr "cap.png") tt)) = 0%nat /\
  exists evs e,
    events_of (streamlit_app.predict_mushroom model (PyStr "cap.png") tt)
    = evs ++ [EvStError ("Error preprocessing image: " ++ exn_msg e)].
Proof.
  intros E model. split; [reflexivity|].
  exact (X12_predict_mushroom_stops_at_None model (PyStr "cap.png") eq_refl).
Defined.

(** X13. The app never opens a file: neither its preprocessor nor
    [predict_mushroom] calls [Image.open], whatever they are given; a path
    gets an [st.error] and [None], with no call of Pillow at all. *)
Theorem X13_app_never_opens_a_file
    {F : Type} {PF : PyFloat F} {E : Env F}
    (model : keras_model F) (input : py_image) (path : string) :
  calls OpImageOpen (events_of (streamlit_app.preprocess_image input tt)) = 0%nat /\
  calls OpImageOpen (events_of (streamlit_app.predict_mushroom model input tt)) = 0%nat /\
  streamlit_app.predict_mushroom model (PyStr path) tt
  = Run (Return None) tt
        [EvStError "Error preprocessing image: 'str' object has no attribute 'mode'"].
Proof.
  pose proof (app_preprocess_image_no_open input) as Hc.
  split; [exact Hc|]. split; [|reflexivity].
  rewrite predict_mushroom_run.
  destruct (streamlit_app.preprocess_image input tt) as [[[t|]|e] s1 ev1]; simpl_run.
  - destruct (model_predict model t) as [[|[|p tl] rows]|e]; simpl_run;
      rewrite ?calls_app, Hc; reflexivity.
  - exact Hc.
  - rewrite calls_app, Hc. reflexivity.
Qed.

(** X14. [load_model] of the app returns a model exactly when the file
    "mushroom_model.h5" exists and Keras loads it, and asks Keras only when
    the file exists. *)
Theorem X14_app_load_model_returns_the_loaded_model
    {F : Type} {PF : PyFloat F} {E : Env F} (m : keras_model F) :
  (outcome_of (streamlit_app.load_model tt) = Return (Some m) <->
   os_path_exists "mushroom_model.h5" = true /\
   keras_load_model "mushroom_model.h5" = Return m) /\
  calls OpLoadModel (events_of (streamlit_app.load_model tt))
  = (if os_path_exists "mushroom_model.h5" then 1 else 0)%nat.
Proof.
  unfold streamlit_app.load_model, streamlit_app.MODEL_PATH. unfold_monad.
  destruct (os_path_exists "mushroom_model.h5"); simpl_run.
  - destruct (keras_load_model "mushroom_model.h5") as [m'|e]; simpl_run;
      (split; [split|reflexivity]).
    + intros H. injection H as ->. auto.
    + intros [_ H]. injection H as ->. reflexivity.
    + discriminate.
    + intros [_ H]. discriminate.
  - split; [split|reflexivity]; [discriminate|]. intros [H _]. discriminate.
Qed.

(** ** [validate_image] *)

Section Validate.
Context {F : Type} {PF : PyFloat F} {E : Env F} {B : PyBuiltins F}.

(** The run of [validate_image], step by step. *)
Lemma validate_image_run (path : string) (max_size_mb : Z) :
  utils.validate_image path max_size_mb tt =
    if os_path_exists path then
      match os_path_getsize path with
      | Raise e => Run (Raise e) tt [EvPathExists path; EvGetSize path]
      | Return n =>
          if f_gt_int (int_truediv n (1024 * 1024)) max_size_mb then
            Run (Return (false,
                   Some ("File too large (" ++ format_2f (int_truediv n (1024 * 1024))
                         ++ "MB). Max size: " ++ str_int max_size_mb ++ "MB")%string))
                tt [EvPathExists path; EvGetSize path]
          else
            match Image_open path with
            | Raise e =>
                Run (Return (false, Some ("Invalid image file: " ++ exn_msg e)%string)) tt
                    [EvPathExists path; EvGetSize path; EvImageOpen path]
            | Return im =>
                match Image_verify im with
                | Raise e =>
                    Run (Return (false, Some ("Invalid image file: " ++ exn_msg e)%string)) tt
                        [EvPathExists path; EvGetSize path; EvImageOpen path; EvVerify]
                | Return _ =>
                    Run (Return (true, None)) tt
                        [EvPathExists path; EvGetSize path; EvImageOpen path; EvVerify]
                end
            end
      end
    else Run (Return (false, Some "File does not exist"%string)) tt [EvPathExists path].
Proof.
  unfold utils.validate_image. unfold_monad.
  destruct (os_path_exists path); cbn [negb]; steps.
Qed.

End Validate.

(** The size test in exact arithmetic: more than [max_size_mb] times 2^20
    bytes. *)
Lemma too_large_exact (n max_size_mb : Z) :
  f_gt_int (int_truediv n (1024 * 1024)) max_size_mb = true
  <-> (max_size_mb * 1048576 < n)%Z.
Proof.
  cbn [f_gt_int int_truediv PyBuiltins_exact].
  rewrite negb_true_iff, <- not_true_iff_false, Qle_bool_iff.
  unfold Qle, Qdiv, Qmult, Qinv, inject_Z. cbn. lia.
Qed.

(** X15. [validate_image] answers [(True, None)] exactly when the file
    exists, its size in megabytes is not greater than [max_size_mb], Pillow
    opens it and [verify] accepts it; and whenever it answers, the flag is
    true exactly when there is no message. *)
Theorem X15_validate_image_accepts_exactly_the_valid
    {F : Type} {PF : PyFloat F} {E : Env F} {B : PyBuiltins F}
    (path : string) (max_size_mb : Z) :
  (outcome_of (utils.validate_image path max_size_mb tt) = Return (true, None) <->
   os_path_exists path = true /\
   exists n im,
     os_path_getsize path = Return n /\
     f_gt_int (int_truediv n (1024 * 1024)) max_size_mb = false /\
     Image_open path = Return im /\
     Image_verify im = Return tt) /\
  (forall is_valid message,
     outcome_of (utils.validate_image path max_size_mb tt) = Return (is_valid, message) ->
     (is_valid = true <-> message = None)).
Proof.
  rewrite validate_image_run. split.
  - split.
    + destruct (os_path_exists path); [|discriminate]. split; [reflexivity|].
      destruct (os_path_getsize path) as [n|e]; [|discriminate].
      destruct (f_gt_int _ _) eqn:Hgt; [discriminate|].
      destruct (Image_open path) as [im|e]; [|discriminate].
      destruct (Image_verify im) as [[]|e] eqn:Hv; [|discriminate].
      exists n, im. auto.
    + intros (-> & n & im & -> & -> & -> & ->). reflexivity.
  - intros is_valid message.
    destruct (os_path_exists path); simpl_run.
    + destruct (os_path_getsize path) as [n|e]; simpl_run; [|discriminate].
      destruct (f_gt_int _ _); simpl_run.
      * intros H. injection H as <- <-. split; discriminate.
      * destruct (Image_open path) as [im|e]; simpl_run.
        -- destruct (Image_verify im) as [[]|e]; simpl_run;
             intros H; injection H as <- <-; split; auto; discriminate.
        -- intros H. injection H as <- <-. split; discriminate.
    + intros H. injection H as <- <-. split; discriminate.
Qed.

(** X15, at the small image file, which is valid. *)
Lemma X15_witness :
  let E := Demo.env (Return [[3 # 4]]) in
  outcome_of (utils.validate_image "cap.png" 16 tt) = Return (true, None) /\
  (os_path_exists "cap.png" = true /\
   exists n im,
     os_path_getsize "cap.png" = Return n /\
     f_gt_int (int_truediv n (1024 * 1024)) 16 = false /\
     Image_open "cap.png" = Return im /\
     Image_verify im = Return tt) /\
  (true = true <-> @None string = None).
Proof.
  intros E.
  assert (outcome_of (utils.validate_image "cap.png" 16 tt) = Return (true, None)) as Hr
    by reflexivity.
  split; [exact Hr|].
  destruct (@X15_validate_image_accepts_exactly_the_valid Q _ E _ "cap.png" 16)
    as (Hiff & Hmsg).
  split; [exact (proj1 Hiff Hr)|exact (Hmsg true None Hr)].
Defined.

(** X16. The one exception [validate_image] lets through is that of
    [os.path.getsize] on a file that exists: those of [Image.open] and
    [verify] are caught and reported in the message. *)
Theorem X16_validate_image_raises_only_from_getsize
    {F : Type} {PF : PyFloat F} {E : Env F} {B : PyBuiltins F}
    (path : string) (max_size_mb : Z) (e : exn) :
  outcome_of (utils.validate_image path max_size_mb tt) = Raise e <->
  os_path_exists path = true /\ os_path_getsize path = Raise e.
Proof.
  rewrite validate_image_run. split.
  - destruct (os_path_exists path); [|discriminate].
    destruct (os_path_getsize path) as [n|e']; simpl_run.
    + destruct (f_gt_int _ _); [discriminate|].
      destruct (Image_open path) as [im|e']; [|discriminate].
      destruct (Image_verify im); discriminate.
    + intros H. injection H as ->. auto.
  - intros (-> & ->). reflexivity.
Qed.

(** X17. [validate_image] makes each call at most once and in the order
    exists, getsize, open, verify; a file that is missing is not measured, and
    a file that is missing or too large is not opened. *)
Theorem X17_validate_image_checks_before_opening
    {F : Type} {PF : PyFloat F} {E : Env F} {B : PyBuiltins F}
    (path : string) (max_size_mb : Z) :
  (exists k,
     events_of (utils.validate_image path max_size_mb tt)
     = firstn k [EvPathExists path; EvGetSize path; EvImageOpen path; EvVerify]) /\
  calls OpGetSize (events_of (utils.validate_image path max_size_mb tt))
  = (if os_path_exists path then 1 else 0)%nat /\
  (calls OpImageOpen (events_of (utils.validate_image path max_size_mb tt)) = 1%nat <->
   os_path_exists path = true /\
   exists n, os_path_getsize path = Return n /\
             f_gt_int (int_truediv n (1024 * 1024)) max_size_mb = false).
Proof.
  rewrite validate_image_run.
  destruct (os_path_exists path); simpl_run.
  - destruct (os_path_getsize path) as [n|e]; simpl_run.
    + destruct (f_gt_int _ _) eqn:Hgt; simpl_run.
      * split; [exists 2%nat; reflexivity|]. split; [reflexivity|].
        split; [discriminate|]. intros (_ & n' & Hn & Hf).
        injection Hn as <-. congruence.
      * destruct (Image_open path) as [im|e]; simpl_run.
        -- destruct (Image_verify im); simpl_run;
             (split; [exists 4%nat; reflexivity|]); (split; [reflexivity|]);
             (split; [eauto|reflexivity]).
        -- split; [exists 3%nat; reflexivity|]. split; [reflexivity|].
           split; [eauto|reflexivity].
    + split; [exists 2%nat; reflexivity|]. split; [reflexivity|].
      split; [discriminate|]. intros (_ & n' & Hn & _). discriminate.
  - split; [exists 1%nat; reflexivity|]. split; [reflexivity|].
    split; [discriminate|]. intros (H & _). discriminate.
Qed.

(** X18. In exact arithmetic the size limit is [max_size_mb] times 2^20
    bytes, the limit itself included: a file that Pillow opens and verifies
    is accepted exactly when it is not longer than that. *)
Theorem X18_validate_image_size_limit
    {E : Env Q} (path : string) (max_size_mb n : Z) (im : image) :
  os_path_exists path = true ->
  os_path_getsize path = Return n ->
  Image_open path = Return im ->
  Image_verify im = Return tt ->
  (outcome_of (utils.validate_image path max_size_mb tt) = Return (true, None)
   <-> (n <= max_size_mb * 1048576)%Z) /\
  (n = (max_size_mb * 1048576)%Z ->
   outcome_of (utils.validate_image path max_size_mb tt) = Return (true, None)).
Proof.
  intros Hx Hn Ho Hv.
  assert (outcome_of (utils.validate_image path max_size_mb tt) = Return (true, None)
          <-> (n <= max_size_mb * 1048576)%Z) as Hiff.
  { rewrite validate_image_run, Hx, Hn, Ho, Hv.
    pose proof (too_large_exact n max_size_mb) as Hl.
    destruct (f_gt_int _ _); simpl_run.
    - split; [discriminate|]. intros Hle. apply proj1 in Hl. specialize (Hl eq_refl). lia.
    - split; [|reflexivity]. intros _.
      destruct (Z.le_gt_cases n (max_size_mb * 1048576)) as [Hle|Hgt]; [exact Hle|].
      apply Hl in Hgt. discriminate. }
  split; [exact Hiff|]. intros ->. apply Hiff. lia.
Qed.

(** X18, at the small image file and at the limit of 16 MB for a file of
    1234 bytes. *)
Lemma X18_witness :
  let E := Demo.env (Return [[3 # 4]]) in
  os_path_exists "cap.png" = true /\
  os_path_getsize "cap.png" = Return 1234%Z /\
  Image_open "cap.png" = Return Demo.cap /\
  Image_verify Demo.cap = Return tt /\
  (outcome_of (utils.validate_image "cap.png" 16 tt) = Return (true, None)
   <-> (1234 <= 16 * 1048576)%Z) /\
  (1234%Z = (16 * 1048576)%Z ->
   outcome_of (utils.validate_image "cap.png" 16 tt) = Return (true, None)).
Proof.
  intros E. do 4 (split; [reflexivity|]).
  exact (@X18_validate_image_size_limit E "cap.png" 16 1234 Demo.cap
           eq_refl eq_refl eq_refl eq_refl).
Defined.

(** ** [format_prediction_output] *)

Lemma append_assoc (a b c : string) : ((a ++ b) ++ c = a ++ (b ++ c))%string.
Proof.
  induction a as [|x a IH]; cbn; [reflexivity|]. now rewrite IH.
Qed.

(** X19. [format_prediction_output] cannot print an error entry of
    [predict_batch]: for an image on which [predict] raises, the element of
    the batch makes it raise [KeyError] for the key 'prediction', detailed or
    not. *)
Theorem X19_format_raises_on_error_entries
    {F : Type} {PF : PyFloat F} {E : Env F} {B : PyBuiltins F}
    (self : utils.MushroomClassifier F) (m : keras_model F)
    (images : list py_image) (i : nat) (image : py_image) (e : exn) (detailed : bool) :
  utils.model self = Some m ->
  nth_error images i = Some image ->
  outcome_of (utils.predict image false self) = Raise e ->
  exists results entry,
    outcome_of (utils.predict_batch images self) = Return results /\
    nth_error results i = Some entry /\
    outcome_of (utils.format_prediction_output entry detailed tt)
    = Raise (Exn KeyError "'prediction'").
Proof.
  intros Hm Hi He.
  exists (map (item_of self) images), (utils.ItemError (exn_msg e)).
  rewrite (predict_batch_run self images Hm). split; [reflexivity|].
  split; [|reflexivity].
  rewrite nth_error_map, Hi. cbn [option_map]. unfold item_of. rewrite He. reflexivity.
Qed.

(** X19, on a batch whose second file Pillow cannot read. *)
Lemma X19_witness :
  let E := Demo.env (Return [[3 # 4]]) in
  let self := Demo.classifier (Return [[3 # 4]]) (2, 2)%nat in
  let images := [PyStr "cap.png"; PyStr "spore.png"] in
  utils.model self = Some (Demo.stub_model (Return [[3 # 4]])) /\
  nth_error images 1 = Some (PyStr "spore.png") /\
  outcome_of (utils.predict (PyStr "spore.png") false self)
  = Raise (Exn RuntimeError "Prediction failed: cannot identify image file") /\
  exists results entry,
    outcome_of (utils.predict_batch images self) = Return results /\
    nth_error results 1 = Some entry /\
    outcome_of (utils.format_prediction_output entry true tt)
    = Raise (Exn KeyError "'prediction'").
Proof.
  intros E self images. do 3 (split; [reflexivity|]).
  exact (@X19_format_raises_on_error_entries Q _ E _ self _ images 1
           (PyStr "spore.png") _ true eq_refl eq_refl eq_refl).
Defined.

(** X20. On a result dictionary [format_prediction_output] returns a text
    and calls nothing; the short text ([detailed=False]) is the beginning of
    the detailed one. *)
Theorem X20_short_output_begins_detailed_output
    {F : Type} {PF : PyFloat F} {E : Env F} {B : PyBuiltins F}
    (d : utils.result F) :
  exists short rest,
    utils.format_prediction_output (utils.ItemResult d) false tt
    = Run (Return short) tt [] /\
    utils.format_prediction_output (utils.ItemResult d) true tt
    = Run (Return (short ++ rest)%string) tt [].
Proof.
  unfold utils.format_prediction_output. unfold_monad.
  eexists. eexists. split; [reflexivity|].
  rewrite !append_assoc. reflexivity.
Qed.

(** X21. The text for a dictionary returned by [predict] (on an instance
    with the class names of [__init__]) starts with the skull and
    "Prediction: Poisonous" when the probability read from the model is
    greater than 0.5, and with the check mark and "Prediction: Edible"
    otherwise; its second line is the confidence in percent with two
    decimals. *)
Theorem X21_format_shows_verdict_and_confidence
    {F : Type} {PF : PyFloat F} {E : Env F} {B : PyBuiltins F}
    (self : utils.MushroomClassifier F) (image : py_image) (return_probs : bool)
    (r : utils.result F) :
  utils.class_names self = default_class_names ->
  outcome_of (utils.predict image return_probs self) = Return r ->
  exists p rest,
    utils_reads self image p /\
    outcome_of (utils.format_prediction_output (utils.ItemResult r) true tt)
    = Return ((if f_gt p f_half then "☠️ Prediction: Poisonous" else "✅ Prediction: Edible")
              ++ nl ++ "Confidence: "
              ++ format_2f (f_mul (pymax p (f_sub f_one p)) f_hundred) ++ "%" ++ nl
              ++ rest)%string.
Proof.
  intros Hcn Hr.
  apply predict_Return_inv in Hr as (p & name & Hp & Hn & ->).
  rewrite Hcn, default_class_name in Hn. injection Hn as <-.
  exists p. eexists. split; [exact Hp|].
  unfold utils.format_prediction_output. unfold_monad.
  cbn [outcome_of utils.prediction utils.confidence utils.is_poisonous utils.probabilities
       utils.edible utils.poisonous utils_result].
  destruct (f_gt p f_half); rewrite !append_assoc; cbn [append];
    rewrite ?append_assoc; reflexivity.
Qed.

(** X21, at the model answering 3/4 on the 2 x 2 test image. *)
Lemma X21_witness :
  let E := Demo.env (Return [[3 # 4]]) in
  let self := Demo.classifier (Return [[3 # 4]]) (2, 2)%nat in
  let r := utils_result "Poisonous" (3 # 4) in
  utils.class_names self = default_class_names /\
  outcome_of (utils.predict (PyImage Demo.cap) false self) = Return r /\
  exists p rest,
    utils_reads self (PyImage Demo.cap) p /\
    outcome_of (utils.format_prediction_output (utils.ItemResult r) true tt)
    = Return ((if f_gt p f_half then "☠️ Prediction: Poisonous" else "✅ Prediction: Edible")
              ++ nl ++ "Confidence: "
              ++ format_2f (f_mul (pymax p (f_sub f_one p)) f_hundred) ++ "%" ++ nl
              ++ rest)%string.
Proof.
  intros E self r. split; [reflexivity|].
  assert (outcome_of (utils.predict (PyImage Demo.cap) false self) = Return r) as Hr
    by (vm_compute; reflexivity).
  split; [exact Hr|].
  exact (@X21_format_shows_verdict_and_confidence Q _ E _ self (PyImage Demo.cap)
           false r eq_refl Hr).
Defined.

(** ** The verdict and the two probabilities *)



(** X23. The verdict of [predict_mushroom] is the entry of the constant
    [CLASS_NAMES] at index 1 when [is_poisonous] is true and at index 0
    otherwise, although the function spells the two names out itself. *)
Theorem X23_app_verdict_is_a_class_name
    {F : Type} {PF : PyFloat F} {E : Env F}
    (model : keras_model F) (image : py_image) (r : streamlit_app.result F) :
  outcome_of (streamlit_app.predict_mushroom model image tt) = Return (Some r) ->
  nth_error streamlit_app.CLASS_NAMES (if streamlit_app.is_poisonous r then 1 else 0)
  = Some (streamlit_app.prediction r).
Proof.
  intros Hr. apply predict_mushroom_Some_inv in Hr as (p & _ & ->).
  cbn [streamlit_app.is_poisonous streamlit_app.prediction app_result].
  destruct (f_gt p f_half); reflexivity.
Qed.

(** X23, at the model answering 0.75 on the 2 x 2 test image. *)
Lemma X23_witness :
  let E := Demo.env (Return [[0.75%float]]) in
  let model := Demo.stub_model (Return [[0.75%float]]) in
  let r := app_result 0.75%float in
  outcome_of (streamlit_app.predict_mushroom model (PyImage Demo.cap) tt)
  = Return (Some r) /\
  nth_error streamlit_app.CLASS_NAMES (if streamlit_app.is_poisonous r then 1 else 0)
  = Some (streamlit_app.prediction r).
Proof.
  intros E model r.
  assert (outcome_of (streamlit_app.predict_mushroom model (PyImage Demo.cap) tt)
          = Return (Some r)) as Hr.
  { apply predict_mushroom_Some_intro.
    destruct (app_preprocess_image_ok (E := E) (input := PyImage Demo.cap)
                (Demo_contract _) eq_refl Demo_cap_well_formed)
      as (t & Ht & _); [discriminate|].
    exists t. split; [exact Ht|]. exists [], []. reflexivity. }
  split; [exact Hr|].
  exact (X23_app_verdict_is_a_class_name model (PyImage Demo.cap) Hr).
Defined.
